(** * LifeVault front end: the wallet authentication flows

    A shallow embedding of
    - [src/context/WalletContext.tsx], the wallet context built on the Aptos
      wallet adapter hook (module [WalletContext]),
    - the second wallet context of the repository, built on the
      [walletService] module (module [ServiceContext]),
    - [src/services/api.js], the axios instance with its two interceptors and
      the [memoryAPI] and [authAPI] objects (modules [api], [memoryAPI],
      [authAPI]),
    - [src/hooks/useMemories.js] (module [useMemories]),
    - the handlers of [ConnectWalletButton.tsx] and [WalletAuthModal.tsx] and
      the values of [StatsCards.tsx],
    followed by the properties of the authentication protocol and of the
    code around it. *)

From Stdlib Require Import String Ascii List ZArith Bool Lia DecimalString.
From stdpp Require Import base gmap strings.
Import ListNotations.
Local Open Scope string_scope.
Local Open Scope Z_scope.
Set Warnings "-register-all".

(** ** JavaScript values

    The flows handle untyped values everywhere a [catch (error: any)] or an
    HTTP body is involved, so values are modelled dynamically. Numbers are the
    integer-valued ones (time stamps, HTTP status codes); an object is the
    ordered list of its own fields. *)

Inductive JsVal : Type :=
| JUndefined
| JNull
| JBool (b : bool)
| JNum (n : Z)
| JStr (s : string)
| JArr (items : list JsVal)
| JObj (fields : list (string * JsVal)).

(** ToBoolean. *)
Definition truthy (v : JsVal) : bool :=
  match v with
  | JUndefined | JNull => false
  | JBool b => b
  | JNum n => negb (n =? 0)
  | JStr s => negb (String.eqb s "")
  | JArr _ | JObj _ => true
  end.

Definition nullish (v : JsVal) : bool :=
  match v with
  | JUndefined | JNull => true
  | _ => false
  end.

(** [a || b]. *)
Definition js_or (a b : JsVal) : JsVal := if truthy a then a else b.

Fixpoint field (k : string) (fs : list (string * JsVal)) : JsVal :=
  match fs with
  | [] => JUndefined
  | (k', v) :: rest => if String.eqb k k' then v else field k rest
  end.

(** [v?.k]: never throws. None of the keys this program reads is a property
    of a primitive, so a primitive answers [undefined]. *)
Definition opt_member (v : JsVal) (k : string) : JsVal :=
  match v with
  | JObj fs => field k fs
  | _ => JUndefined
  end.

(** Template-literal and [localStorage] conversion to string; an array is
    joined with commas, its [undefined] and [null] items as empty strings. *)
Fixpoint to_string (v : JsVal) : string :=
  match v with
  | JUndefined => "undefined"
  | JNull => "null"
  | JBool true => "true"
  | JBool false => "false"
  | JNum n => NilZero.string_of_int (Z.to_int n)
  | JStr s => s
  | JArr items =>
      String.concat ","
        (map (fun item => match item with
                          | JUndefined | JNull => ""
                          | _ => to_string item
                          end) items)
  | JObj _ => "[object Object]"
  end.

(** [a === b] on primitives. Two objects, or two arrays, are equal only as
    references; the values compared here are read from different places. *)
Definition strict_eq (a b : JsVal) : bool :=
  match a, b with
  | JUndefined, JUndefined | JNull, JNull => true
  | JBool x, JBool y => Bool.eqb x y
  | JNum x, JNum y => x =? y
  | JStr x, JStr y => String.eqb x y
  | _, _ => false
  end.

(** [new Error(msg)] and the engine's [TypeError]s, as the objects a handler
    sees. *)
Definition Error (msg : string) : JsVal :=
  JObj [("name", JStr "Error"); ("message", JStr msg)].

Definition TypeError (msg : string) : JsVal :=
  JObj [("name", JStr "TypeError"); ("message", JStr msg)].

Definition nl : string := String (ascii_of_nat 10) EmptyString.

(** [s.substring(2)]. *)
Definition substring2 (s : string) : string :=
  String.substring 2 (String.length s - 2) s.

(** ** The world outside the flows *)

(** Every call that leaves the program: the wallet adapter hook's functions,
    the [walletService] functions, the HTTP request of axios, the callback
    passed to the button as a prop, [updateUser] of the authentication
    context, and the timer. *)
Inductive Call : Type :=
| AptosConnect (walletName : string)
| AptosDisconnect
| AptosSignMessage (message nonce : string)
| AptosSignAndSubmitTransaction (transaction : JsVal)
| WsIsPetraInstalled
| WsGetAccount
| WsConnect
| WsDisconnect
| WsGetNetwork
| WsGetAddress
| WsGetPublicKey
| WsGenerateAuthMessage (address : JsVal)
| WsSignMessage (message : JsVal)
| HttpRequest (method url : string) (authorization : option string)
              (params body : JsVal)
| OnAuthSuccess
| UpdateUser (fields : JsVal)
| SetTimeout (ms : Z).

(** What the wallet provider may report while the program is suspended. *)
Inductive ProviderEvent : Type :=
| AccountChanged (account : JsVal)
| NetworkChanged (net : JsVal).

Inductive Completion (A : Type) : Type :=
| Normal (a : A)
| Throw (e : JsVal).
Arguments Normal {A} a.
Arguments Throw {A} e.

Record Reply : Type := {
  events : list ProviderEvent;
  outcome : Completion JsVal
}.

(** The environment answers a call knowing the calls made before it. *)
Record Env : Type := {
  provider : list Call -> Call -> Reply;
  clock : list Call -> Z;
  random36 : list Call -> string
}.

(** React state of the [walletService]-based provider component. *)
Record WalletState : Type := {
  isConnected : bool;
  isConnecting : bool;
  address : JsVal;
  publicKey : JsVal;
  network : JsVal;
  isPetraInstalled : bool
}.

(** React state of the [useMemories] hook. An exception thrown by a state
    updater surfaces when React renders, outside every handler of the hook:
    [crashed] holds it. *)
Module Memories.
Record State : Type := {
  memories : JsVal;
  loading : bool;
  error : JsVal;
  pagination : JsVal;
  stats : JsVal;
  crashed : option JsVal
}.

Definition setMemories (v : JsVal) (s : State) : State :=
  {| memories := v; loading := loading s; error := error s;
     pagination := pagination s; stats := stats s; crashed := crashed s |}.

Definition setLoading (b : bool) (s : State) : State :=
  {| memories := memories s; loading := b; error := error s;
     pagination := pagination s; stats := stats s; crashed := crashed s |}.

Definition setError (v : JsVal) (s : State) : State :=
  {| memories := memories s; loading := loading s; error := v;
     pagination := pagination s; stats := stats s; crashed := crashed s |}.

Definition setPagination (v : JsVal) (s : State) : State :=
  {| memories := memories s; loading := loading s; error := error s;
     pagination := v; stats := stats s; crashed := crashed s |}.

Definition setStats (v : JsVal) (s : State) : State :=
  {| memories := memories s; loading := loading s; error := error s;
     pagination := pagination s; stats := v; crashed := crashed s |}.

Definition crash (e : JsVal) (s : State) : State :=
  {| memories := memories s; loading := loading s; error := error s;
     pagination := pagination s; stats := stats s; crashed := Some e |}.

(** [useState] initial values. *)
Definition initial : State :=
  {| memories := JArr []; loading := true; error := JNull;
     pagination := JObj [("page", JNum 1); ("limit", JNum 20);
                         ("total", JNum 0); ("pages", JNum 0)];
     stats := JNull; crashed := None |}.
End Memories.

(** React state of the [ConnectWalletButton] component. *)
Module Button.
Record State : Type := {
  showDropdown : bool;
  copied : bool;
  authenticating : bool;
  error : JsVal
}.

Definition setShowDropdown (b : bool) (s : State) : State :=
  {| showDropdown := b; copied := copied s; authenticating := authenticating s;
     error := error s |}.


Definition setError (v : JsVal) (s : State) : State :=
  {| showDropdown := showDropdown s; copied := copied s;
     authenticating := authenticating s; error := v |}.

Definition initial : State :=
  {| showDropdown := false; copied := false; authenticating := false;
     error := JNull |}.
End Button.

(** React state of the [WalletAuthModal] component. *)
Module Modal.
Inductive Step : Type := StepConnect | StepSign | StepSuccess | StepError.

Record State : Type := {
  step : Step;
  loading : bool;
  error : JsVal
}.

Definition setStep (v : Step) (s : State) : State :=
  {| step := v; loading := loading s; error := error s |}.

Definition setLoading (b : bool) (s : State) : State :=
  {| step := step s; loading := b; error := error s |}.

Definition setError (v : JsVal) (s : State) : State :=
  {| step := step s; loading := loading s; error := v |}.

Definition initial : State :=
  {| step := StepConnect; loading := false; error := JNull |}.
End Modal.

Record World : Type := {
  localStorage : gmap string string;
  location_href : string;
  console : list (string * JsVal);
  calls : list Call;
  ui : WalletState;
  subscribed : bool;
  hook : Memories.State;
  button : Button.State;
  modal : Modal.State
}.

Definition set_ui (f : WalletState -> WalletState) (w : World) : World :=
  {| localStorage := localStorage w; location_href := location_href w;
     console := console w; calls := calls w; ui := f (ui w);
     subscribed := subscribed w; hook := hook w;
     button := button w; modal := modal w |}.

Definition set_hook (f : Memories.State -> Memories.State) (w : World) : World :=
  {| localStorage := localStorage w; location_href := location_href w;
     console := console w; calls := calls w; ui := ui w;
     subscribed := subscribed w; hook := f (hook w); button := button w; modal := modal w |}.

Definition set_button (f : Button.State -> Button.State) (w : World) : World :=
  {| localStorage := localStorage w; location_href := location_href w;
     console := console w; calls := calls w; ui := ui w;
     subscribed := subscribed w; hook := hook w; button := f (button w);
     modal := modal w |}.

Definition set_modal (f : Modal.State -> Modal.State) (w : World) : World :=
  {| localStorage := localStorage w; location_href := location_href w;
     console := console w; calls := calls w; ui := ui w;
     subscribed := subscribed w; hook := hook w; button := button w;
     modal := f (modal w) |}.

Definition setIsConnected (b : bool) (s : WalletState) : WalletState :=
  {| isConnected := b; isConnecting := isConnecting s; address := address s;
     publicKey := publicKey s; network := network s;
     isPetraInstalled := isPetraInstalled s |}.

Definition setIsConnecting (b : bool) (s : WalletState) : WalletState :=
  {| isConnected := isConnected s; isConnecting := b; address := address s;
     publicKey := publicKey s; network := network s;
     isPetraInstalled := isPetraInstalled s |}.

Definition setAddress (v : JsVal) (s : WalletState) : WalletState :=
  {| isConnected := isConnected s; isConnecting := isConnecting s; address := v;
     publicKey := publicKey s; network := network s;
     isPetraInstalled := isPetraInstalled s |}.

Definition setPublicKey (v : JsVal) (s : WalletState) : WalletState :=
  {| isConnected := isConnected s; isConnecting := isConnecting s;
     address := address s; publicKey := v; network := network s;
     isPetraInstalled := isPetraInstalled s |}.

Definition setNetwork (v : JsVal) (s : WalletState) : WalletState :=
  {| isConnected := isConnected s; isConnecting := isConnecting s;
     address := address s; publicKey := publicKey s; network := v;
     isPetraInstalled := isPetraInstalled s |}.

Definition setIsPetraInstalled (b : bool) (s : WalletState) : WalletState :=
  {| isConnected := isConnected s; isConnecting := isConnecting s;
     address := address s; publicKey := publicKey s; network := network s;
     isPetraInstalled := b |}.

(** The two listeners the provider component registers (second context,
    lines 58-72). A listener that throws leaves the state as it was. *)
Definition onAccountChange (account : JsVal) (s : WalletState) : WalletState :=
  if truthy account then
    setIsConnected true
      (setPublicKey (opt_member account "publicKey")
         (setAddress (opt_member account "address") s))
  else
    setIsConnected false (setPublicKey JNull (setAddress JNull s)).

Definition onNetworkChange (net : JsVal) (s : WalletState) : WalletState :=
  if nullish net then s else setNetwork (opt_member net "name") s.

Definition handle (ev : ProviderEvent) (s : WalletState) : WalletState :=
  match ev with
  | AccountChanged account => onAccountChange account s
  | NetworkChanged net => onNetworkChange net s
  end.

(** Events reach the component only once its effect has subscribed; they
    change nothing but the component state. *)
Definition deliver (evs : list ProviderEvent) (w : World) : World :=
  {| localStorage := localStorage w; location_href := location_href w;
     console := console w; calls := calls w;
     ui := if subscribed w
           then fold_left (fun s ev => handle ev s) evs (ui w)
           else ui w;
     subscribed := subscribed w; hook := hook w;
     button := button w; modal := modal w |}.

Definition log_call (c : Call) (w : World) : World :=
  {| localStorage := localStorage w; location_href := location_href w;
     console := console w; calls := calls w ++ [c]; ui := ui w;
     subscribed := subscribed w; hook := hook w;
     button := button w; modal := modal w |}.

(** ** Computations with state and exceptions

    State survives a [throw], as it does in JavaScript. *)

Definition Js (A : Type) : Type := World -> Completion A * World.

Definition ret {A} (a : A) : Js A := fun w => (Normal a, w).

Definition throw {A} (e : JsVal) : Js A := fun w => (Throw e, w).

Definition bind {A B} (c : Js A) (k : A -> Js B) : Js B :=
  fun w =>
    match c w with
    | (Normal a, w') => k a w'
    | (Throw e, w') => (Throw e, w')
    end.

Definition try_catch {A} (c : Js A) (h : JsVal -> Js A) : Js A :=
  fun w =>
    match c w with
    | (Normal a, w') => (Normal a, w')
    | (Throw e, w') => h e w'
    end.

Definition try_finally {A} (c : Js A) (f : Js unit) : Js A :=
  fun w =>
    match c w with
    | (r, w') =>
        match f w' with
        | (Normal _, w'') => (r, w'')
        | (Throw e, w'') => (Throw e, w'')
        end
    end.

Declare Scope js_scope.
Delimit Scope js_scope with js.
Notation "x <- c ;; k" := (bind c (fun x => k))
  (at level 100, c at next level, right associativity) : js_scope.
Notation "c ;; k" := (bind c (fun _ => k))
  (at level 100, right associativity) : js_scope.
Local Open Scope js_scope.

Definition modify (f : World -> World) : Js unit := fun w => (Normal tt, f w).

(** [v.k]: throws on [undefined] and [null]. *)
Definition member (v : JsVal) (k : string) : Js JsVal :=
  match v with
  | JUndefined =>
      throw (TypeError ("Cannot read properties of undefined (reading '" ++ k ++ "')"))
  | JNull =>
      throw (TypeError ("Cannot read properties of null (reading '" ++ k ++ "')"))
  | _ => ret (opt_member v k)
  end.

(** [const { k } = v]. *)
Definition destructure (v : JsVal) (k : string) : Js JsVal :=
  match v with
  | JUndefined =>
      throw (TypeError ("Cannot destructure property '" ++ k ++ "' of undefined"))
  | JNull =>
      throw (TypeError ("Cannot destructure property '" ++ k ++ "' of null"))
  | _ => ret (opt_member v k)
  end.

Definition console_error (label : string) (v : JsVal) : Js unit :=
  modify (fun w =>
    {| localStorage := localStorage w; location_href := location_href w;
       console := console w ++ [(label, v)]; calls := calls w; ui := ui w;
       subscribed := subscribed w; hook := hook w;
     button := button w; modal := modal w |}).

Section Primitives.
Variable env : Env.

(** [await f(...)]: the call is issued, the program is suspended, the
    events that fire meanwhile run their listeners, then the promise
    settles. *)
Definition await (c : Call) : Js JsVal :=
  fun w =>
    let r := provider env (calls w) c in
    (outcome r, deliver (events r) (log_call c w)).

(** A synchronous call of an external function: nothing can interleave. *)
Definition call (c : Call) : Js JsVal :=
  fun w => (outcome (provider env (calls w) c), log_call c w).

(** [await new Promise(resolve => setTimeout(resolve, ms))]: always
    resolves. *)
Definition sleep (ms : Z) : Js unit :=
  fun w =>
    let r := provider env (calls w) (SetTimeout ms) in
    (Normal tt, deliver (events r) (log_call (SetTimeout ms) w)).

(** [setTimeout(callback, ms)], not awaited: the timer is set and the
    program goes on. *)
Definition schedule (ms : Z) : Js unit :=
  fun w => (Normal tt, log_call (SetTimeout ms) w).

Definition Date_now : Js Z := fun w => (Normal (clock env (calls w)), w).

(** [Math.random().toString(36)]. *)
Definition Math_random_36 : Js string :=
  fun w => (Normal (random36 env (calls w)), w).
End Primitives.

(** [localStorage]. *)
Definition getItem (k : string) : Js (option string) :=
  fun w => (Normal (localStorage w !! k), w).

Definition setItem (k v : string) : Js unit :=
  modify (fun w =>
    {| localStorage := <[k := v]> (localStorage w);
       location_href := location_href w; console := console w;
       calls := calls w; ui := ui w; subscribed := subscribed w; hook := hook w;
     button := button w; modal := modal w |}).

Definition removeItem (k : string) : Js unit :=
  modify (fun w =>
    {| localStorage := delete k (localStorage w);
       location_href := location_href w; console := console w;
       calls := calls w; ui := ui w; subscribed := subscribed w; hook := hook w;
     button := button w; modal := modal w |}).

Definition set_location_href (url : string) : Js unit :=
  modify (fun w =>
    {| localStorage := localStorage w; location_href := url;
       console := console w; calls := calls w; ui := ui w;
       subscribed := subscribed w; hook := hook w;
     button := button w; modal := modal w |}).

(** ** [src/services/api.js] *)

Module api.
Section Api.
Variable env : Env.

(** Request interceptor: the bearer header, when a token is stored. *)
Definition request_interceptor : Js (option string) :=
  token <- getItem "token" ;;
  ret (match token with
       | Some t => if String.eqb t "" then None else Some ("Bearer " ++ t)
       | None => None
       end).

Definition is_401 (status : JsVal) : bool :=
  match status with
  | JNum n => n =? 401
  | _ => false
  end.

(** Response interceptor, rejection side. *)
Definition response_error_interceptor {A} (error : JsVal) : Js A :=
  response <- member error "response" ;;
  (if is_401 (opt_member response "status") then
     removeItem "token" ;;
     set_location_href "/login"
   else ret tt) ;;
  throw error.

(** Every request of the instance runs between the two interceptors; a
    fulfilled response passes through unchanged. *)
Definition request (method url : string) (params body : JsVal) : Js JsVal :=
  authorization <- request_interceptor ;;
  try_catch (await env (HttpRequest method url authorization params body))
            response_error_interceptor.

(** [api.get(url, { params })], [api.post(url, data)], [api.delete(url)]. *)
Definition get (url : string) (params : JsVal) : Js JsVal :=
  request "GET" url params JUndefined.
Definition post (url : string) (body : JsVal) : Js JsVal :=
  request "POST" url JUndefined body.
Definition delete (url : string) : Js JsVal :=
  request "DELETE" url JUndefined JUndefined.
End Api.
End api.

(** [memoryAPI] and [authAPI] of the same file. A template literal turns the
    identifier into a string. *)
Module memoryAPI.
Section MemoryAPI.
Variable env : Env.

(** [getAll: (params = {}) => api.get('/memories', { params })]. *)
Definition getAll (params : JsVal) : Js JsVal :=
  api.get env "/memories" (match params with
                           | JUndefined => JObj []
                           | _ => params
                           end).

Definition getOne (id : JsVal) : Js JsVal :=
  api.get env ("/memories/" ++ to_string id) JUndefined.

Definition create (data : JsVal) : Js JsVal := api.post env "/memories" data.

Definition delete (id : JsVal) : Js JsVal :=
  api.delete env ("/memories/" ++ to_string id).

Definition verify (id : JsVal) : Js JsVal :=
  api.get env ("/memories/" ++ to_string id ++ "/verify") JUndefined.

Definition getStats : Js JsVal := api.get env "/memories/stats" JUndefined.
End MemoryAPI.
End memoryAPI.

Module authAPI.
Section AuthAPI.
Variable env : Env.

Definition login (data : JsVal) : Js JsVal := api.post env "/auth/login" data.
Definition register (data : JsVal) : Js JsVal := api.post env "/auth/register" data.
Definition getMe : Js JsVal := api.get env "/auth/me" JUndefined.
End AuthAPI.
End authAPI.

(** ** [src/context/WalletContext.tsx]: the context over the adapter hook *)

Module WalletContext.

Record Account : Type := {
  account_address : string;
  account_publicKey : string
}.

(** What one render of the component reads from [useAptosWallet()]; the
    callbacks of that render close over these values. *)
Record Render : Type := {
  connected : bool;
  account : option Account;
  wallets : list string
}.

Definition isPetraInstalled (r : Render) : bool :=
  existsb (fun name => String.eqb name "Petra") (wallets r).

Definition generateAuthMessage (address : string) (timestamp : Z) : string :=
  "Sign this message to authenticate with LifeVault." ++ nl ++ nl ++
  "Wallet: " ++ address ++ nl ++
  "Timestamp: " ++ to_string (JNum timestamp) ++ nl ++ nl ++
  "This signature will not trigger any blockchain transaction or cost any gas fees.".

(** The template of line 183. *)
Definition linkMessage (address : string) (timestamp : Z) : string :=
  "Link this wallet to your LifeVault account." ++ nl ++ nl ++
  "Wallet: " ++ address ++ nl ++
  "Timestamp: " ++ to_string (JNum timestamp).

Record SignResult : Type := {
  signature : JsVal;
  fullMessage : JsVal;
  nonce : JsVal
}.

Definition success_token (token : JsVal) : JsVal :=
  JObj [("success", JBool true); ("token", token)].

Definition success_only : JsVal := JObj [("success", JBool true)].

Definition failure (error : JsVal) : JsVal :=
  JObj [("success", JBool false); ("error", error)].

(** [error.response?.data?.message || error.message || fallback], once
    [error.response] has been read. *)
Definition error_text (error response fallback : JsVal) : JsVal :=
  js_or (js_or (opt_member (opt_member response "data") "message")
               (opt_member error "message"))
        fallback.

Definition credentials (a : Account) (s : SignResult) : JsVal :=
  JObj [("address", JStr (account_address a));
        ("publicKey", JStr (account_publicKey a));
        ("signature", signature s);
        ("message", fullMessage s);
        ("nonce", nonce s)].

Section Context.
Variable env : Env.
Variable r : Render.

Definition needs_connect : bool :=
  negb (connected r) || match account r with None => true | Some _ => false end.

Definition connect (walletName : option string) : Js unit :=
  try_catch
    (await env (AptosConnect (match walletName with
                              | Some n => if String.eqb n "" then "Petra" else n
                              | None => "Petra"
                              end)) ;;
     ret tt)
    (fun error =>
       console_error "Failed to connect wallet:" error ;;
       throw error).

Definition disconnect : Js unit :=
  try_catch
    (await env AptosDisconnect ;; ret tt)
    (fun error =>
       console_error "Failed to disconnect wallet:" error ;;
       throw error).

Definition signMessage (message : string) : Js SignResult :=
  if needs_connect then throw (Error "Wallet not connected")
  else
    now <- Date_now env ;;
    rnd <- Math_random_36 env ;;
    let nonce := to_string (JNum now) ++ substring2 rnd in
    response <- await env (AptosSignMessage message nonce) ;;
    sig <- member response "signature" ;;
    full <- member response "fullMessage" ;;
    n <- member response "nonce" ;;
    ret {| signature := sig; fullMessage := full; nonce := n |}.

(** Lines 115-122: guarded by [connected] alone. *)
Definition signAndSubmitTransaction (transaction : JsVal) : Js JsVal :=
  if negb (connected r) then throw (Error "Wallet not connected")
  else
    response <- await env (AptosSignAndSubmitTransaction transaction) ;;
    hash <- member response "hash" ;;
    ret (JObj [("hash", hash)]).

(** [currentAccount?.address], with the account it belongs to when the
    address is truthy. *)
Definition currentAccount : option Account :=
  match account r with
  | Some a => if String.eqb (account_address a) "" then None else Some a
  | None => None
  end.

Definition ensure_connected : Js unit :=
  if needs_connect then connect None ;; sleep env 500 else ret tt.

Definition authenticate_body : Js JsVal :=
  ensure_connected ;;
  match currentAccount with
  | None => ret (failure (JStr "No wallet connected"))
  | Some a =>
      timestamp <- Date_now env ;;
      let message := generateAuthMessage (account_address a) timestamp in
      signResult <- signMessage message ;;
      response <- api.post env "/auth/wallet" (credentials a signResult) ;;
      data <- member response "data" ;;
      inner <- member data "data" ;;
      token <- destructure inner "token" ;;
      setItem "token" (to_string token) ;;
      ret (success_token token)
  end.

Definition on_failure (label : string) (fallback : string) (error : JsVal) : Js JsVal :=
  console_error label error ;;
  response <- member error "response" ;;
  ret (failure (error_text error response (JStr fallback))).

Definition authenticateWithWallet : Js JsVal :=
  try_catch authenticate_body
    (on_failure "Wallet authentication failed:" "Authentication failed").

Definition link_body : Js JsVal :=
  ensure_connected ;;
  match currentAccount with
  | None => ret (failure (JStr "No wallet connected"))
  | Some a =>
      timestamp <- Date_now env ;;
      let message := linkMessage (account_address a) timestamp in
      signResult <- signMessage message ;;
      api.post env "/auth/link-wallet" (credentials a signResult) ;;
      ret success_only
  end.

Definition linkWalletToAccount : Js JsVal :=
  try_catch link_body (on_failure "Wallet linking failed:" "Failed to link wallet").
End Context.
End WalletContext.

(** ** The wallet context over [walletService]

    [walletService] itself is not part of the sources at hand: each of its
    functions is an external call answered by the environment. *)

Module ServiceContext.

Definition connect_ok (address : JsVal) : JsVal :=
  JObj [("success", JBool true); ("address", address)].

Definition failure (error : JsVal) : JsVal :=
  JObj [("success", JBool false); ("error", error)].

Definition success_token (token : JsVal) : JsVal :=
  JObj [("success", JBool true); ("token", token)].

Definition success_only : JsVal := JObj [("success", JBool true)].

(** [error.response?.data?.message || error.message]: no fallback here. *)
Definition error_text (error response : JsVal) : JsVal :=
  js_or (opt_member (opt_member response "data") "message")
        (opt_member error "message").

Definition linkMessage (currentAddress : JsVal) (timestamp : Z) : string :=
  "Link this wallet to your LifeVault account." ++ nl ++ nl ++
  "Wallet: " ++ to_string currentAddress ++ nl ++
  "Timestamp: " ++ to_string (JNum timestamp).

Section Context.
Variable env : Env.

(** The effect of lines 56-74, run for a render that saw [installed]. *)
Definition subscribe (installed : bool) : Js unit :=
  if installed then
    modify (fun w =>
      {| localStorage := localStorage w; location_href := location_href w;
         console := console w; calls := calls w; ui := ui w;
         subscribed := true; hook := hook w; button := button w; modal := modal w |})
  else ret tt.

(** [checkWallet], lines 34-48, which the mount effect runs after 100 ms.
    The component only ever tests [isPetraInstalled] for truth. *)
Definition checkWallet : Js unit :=
  installed <- call env WsIsPetraInstalled ;;
  modify (set_ui (setIsPetraInstalled (truthy installed))) ;;
  if truthy installed then
    account <- await env WsGetAccount ;;
    if truthy account then
      modify (set_ui (setIsConnected true)) ;;
      addr <- member account "address" ;;
      modify (set_ui (setAddress addr)) ;;
      pk <- member account "publicKey" ;;
      modify (set_ui (setPublicKey pk)) ;;
      net <- await env WsGetNetwork ;;
      modify (set_ui (setNetwork net))
    else ret tt
  else ret tt.

Definition connect : Js JsVal :=
  try_finally
    (try_catch
       (modify (set_ui (setIsConnecting true)) ;;
        result <- await env WsConnect ;;
        modify (set_ui (setIsConnected true)) ;;
        addr <- member result "address" ;;
        modify (set_ui (setAddress addr)) ;;
        pk <- member result "publicKey" ;;
        modify (set_ui (setPublicKey pk)) ;;
        net <- await env WsGetNetwork ;;
        modify (set_ui (setNetwork net)) ;;
        addr' <- member result "address" ;;
        ret (connect_ok addr'))
       (fun error =>
          msg <- member error "message" ;;
          ret (failure msg)))
    (modify (set_ui (setIsConnecting false))).

Definition disconnect : Js unit :=
  await env WsDisconnect ;;
  modify (set_ui (setIsConnected false)) ;;
  modify (set_ui (setAddress JNull)) ;;
  modify (set_ui (setPublicKey JNull)).

Definition signMessage (message : JsVal) : Js JsVal :=
  await env (WsSignMessage message).

(** The callbacks below close over [address] and [publicKey] as one render
    read them from the component state. *)
Variable address publicKey : JsVal.

(** [address || walletService.getAddress()]. *)
Definition currentAddress : Js JsVal :=
  if truthy address then ret address
  else call env WsGetAddress.

(** [publicKey || walletService.getPublicKey()]. *)
Definition currentPublicKey : Js JsVal :=
  if truthy publicKey then ret publicKey
  else call env WsGetPublicKey.

Definition credentials (addr signResult : JsVal) : Js JsVal :=
  pk <- currentPublicKey ;;
  sig <- member signResult "signature" ;;
  full <- member signResult "fullMessage" ;;
  n <- member signResult "nonce" ;;
  ret (JObj [("address", addr); ("publicKey", pk); ("signature", sig);
             ("message", full); ("nonce", n)]).

(** The first statement of both flows: connect when no address is held;
    [Some result] is the early return. *)
Definition ensure_connected : Js (option JsVal) :=
  if truthy address then ret None
  else
    connectResult <- connect ;;
    if truthy (opt_member connectResult "success") then ret None
    else ret (Some (failure (opt_member connectResult "error"))).

Definition authenticate_body : Js JsVal :=
  early <- ensure_connected ;;
  match early with
  | Some result => ret result
  | None =>
      addr <- currentAddress ;;
      if negb (truthy addr) then ret (failure (JStr "No wallet address"))
      else
        message <- call env (WsGenerateAuthMessage addr) ;;
        signResult <- await env (WsSignMessage message) ;;
        body <- credentials addr signResult ;;
        response <- api.post env "/auth/wallet" body ;;
        data <- member response "data" ;;
        inner <- member data "data" ;;
        token <- destructure inner "token" ;;
        setItem "token" (to_string token) ;;
        ret (success_token token)
  end.

Definition on_failure (label : string) (error : JsVal) : Js JsVal :=
  console_error label error ;;
  response <- member error "response" ;;
  ret (failure (error_text error response)).

Definition authenticateWithWallet : Js JsVal :=
  try_catch authenticate_body (on_failure "Wallet authentication failed:").

Definition link_body : Js JsVal :=
  early <- ensure_connected ;;
  match early with
  | Some result => ret result
  | None =>
      addr <- currentAddress ;;
      if negb (truthy addr) then ret (failure (JStr "No wallet address"))
      else
        timestamp <- Date_now env ;;
        let message := JStr (linkMessage addr timestamp) in
        signResult <- await env (WsSignMessage message) ;;
        body <- credentials addr signResult ;;
        api.post env "/auth/link-wallet" body ;;
        ret success_only
  end.

Definition linkWalletToAccount : Js JsVal :=
  try_catch link_body (on_failure "Wallet linking failed:").
End Context.
End ServiceContext.

(** ** [src/hooks/useMemories.js] *)

(** [{ ...a, ...b }] for two plain objects: a key of [b] replaces the same
    key of [a] in place, a new key is added at the end. *)
Fixpoint assign (k : string) (v : JsVal) (fs : list (string * JsVal))
  : list (string * JsVal) :=
  match fs with
  | [] => [(k, v)]
  | (k', v') :: rest =>
      if String.eqb k k' then (k, v) :: rest else (k', v') :: assign k v rest
  end.

Definition spread (a b : list (string * JsVal)) : list (string * JsVal) :=
  fold_left (fun acc kv => assign (fst kv) (snd kv) acc) b a.

(** [prev.filter(m => m._id !== id)]: throws when [prev] is no array, or
    when reading [_id] of an item that is [undefined] or [null]. *)
Fixpoint filter_out (id : JsVal) (items : list JsVal) : Completion (list JsVal) :=
  match items with
  | [] => Normal []
  | m :: rest =>
      if nullish m then
        Throw (TypeError ("Cannot read properties of " ++ to_string m
                          ++ " (reading '_id')"))
      else
        match filter_out id rest with
        | Normal kept =>
            Normal (if strict_eq (opt_member m "_id") id then kept else m :: kept)
        | Throw e => Throw e
        end
  end.

Definition without (id : JsVal) (prev : JsVal) : Completion JsVal :=
  match prev with
  | JArr items =>
      match filter_out id items with
      | Normal kept => Normal (JArr kept)
      | Throw e => Throw e
      end
  | JUndefined | JNull =>
      Throw (TypeError ("Cannot read properties of " ++ to_string prev
                        ++ " (reading 'filter')"))
  | _ => Throw (TypeError "prev.filter is not a function")
  end.

Module useMemories.
Section Hook.
Variable env : Env.

(** The argument of the hook; the callers pass plain objects. *)
Variable initialParams : list (string * JsVal).

Definition set (f : Memories.State -> Memories.State) : Js unit :=
  modify (set_hook f).

(** [setMemories(prev => ...)]. *)
Definition update_memories (f : JsVal -> Completion JsVal) : Js unit :=
  set (fun s => match f (Memories.memories s) with
                | Normal v => Memories.setMemories v s
                | Throw e => Memories.crash e s
                end).

(** [err.response?.data?.message || fallback]. *)
Definition error_text (err : JsVal) (fallback : string) : Js JsVal :=
  response <- member err "response" ;;
  ret (js_or (opt_member (opt_member response "data") "message") (JStr fallback)).

Definition failure (message : JsVal) : JsVal :=
  JObj [("success", JBool false); ("message", message)].

Definition fetchMemories (params : list (string * JsVal)) : Js unit :=
  try_finally
    (try_catch
       (set (Memories.setLoading true) ;;
        set (Memories.setError JNull) ;;
        response <- memoryAPI.getAll env (JObj (spread initialParams params)) ;;
        data <- member response "data" ;;
        inner <- member data "data" ;;
        found <- member inner "memories" ;;
        set (Memories.setMemories found) ;;
        page <- member inner "pagination" ;;
        set (Memories.setPagination page))
       (fun err =>
          message <- error_text err "Failed to fetch memories" ;;
          set (Memories.setError message)))
    (set (Memories.setLoading false)).

Definition fetchStats : Js unit :=
  try_catch
    (response <- memoryAPI.getStats env ;;
     data <- member response "data" ;;
     inner <- member data "data" ;;
     set (Memories.setStats inner))
    (fun err => console_error "Failed to fetch stats:" err).

Definition createMemory (data : JsVal) : Js JsVal :=
  try_catch
    (response <- memoryAPI.create env data ;;
     fetchMemories [] ;;
     fetchStats ;;
     body <- member response "data" ;;
     inner <- member body "data" ;;
     ret (JObj [("success", JBool true); ("data", inner)]))
    (fun err =>
       message <- error_text err "Failed to create memory" ;;
       ret (failure message)).

Definition deleteMemory (id : JsVal) : Js JsVal :=
  try_catch
    (memoryAPI.delete env id ;;
     update_memories (without id) ;;
     fetchStats ;;
     ret (JObj [("success", JBool true)]))
    (fun err =>
       message <- error_text err "Failed to delete memory" ;;
       ret (failure message)).

Definition verifyMemory (id : JsVal) : Js JsVal :=
  try_catch
    (response <- memoryAPI.verify env id ;;
     body <- member response "data" ;;
     ret (JObj [("success", JBool true); ("data", body)]))
    (fun err =>
       message <- error_text err "Failed to verify memory" ;;
       ret (failure message)).
End Hook.
End useMemories.

(** ** [src/components/wallet/ConnectWalletButton.tsx]

    The component reads [isConnected], [address] and [connect]'s result
    object from [useWallet()]: it is written against the
    [walletService]-based context. *)

Module ConnectWalletButton.

(** [addr.slice(0, n)] and [addr.slice(-n)], on the characters of an
    address. *)
Definition slice_first (n : nat) (s : string) : string := String.substring 0 n s.

Definition slice_last (n : nat) (s : string) : string :=
  String.substring (String.length s - n) n s.

Definition truncateAddress (addr : string) : string :=
  slice_first 6 addr ++ "..." ++ slice_last 4 addr.

Section Component.
Variable env : Env.

(** What the render read from the context. *)
Variable address publicKey : JsVal.

(** Whether the [onAuthSuccess] prop was passed. *)
Variable onAuthSuccess : bool.

Definition handleConnect : Js unit :=
  modify (set_button (Button.setError JNull)) ;;
  result <- ServiceContext.connect env ;;
  success <- member result "success" ;;
  if truthy success then ret tt
  else
    modify (set_button
              (Button.setError (js_or (opt_member result "error")
                                      (JStr "Connection failed")))).


Definition handleDisconnect : Js unit :=
  ServiceContext.disconnect env ;;
  modify (set_button (Button.setShowDropdown false)).
End Component.
End ConnectWalletButton.

(** ** [src/components/wallet/WalletAuthModal.tsx]

    The modal reads [connected] and [account] from [useWallet()]: it is
    written against the adapter-based context. *)

Module WalletAuthModal.

Inductive Mode : Type := login | link.

Definition truncateAddress (addr : string) : string :=
  ConnectWalletButton.slice_first 8 addr ++ "..."
  ++ ConnectWalletButton.slice_last 6 addr.

Section Component.
Variable env : Env.

(** What the render read from the context, and the [mode] prop. *)
Variable r : WalletContext.Render.
Variable mode : Mode.

Definition handleConnect : Js unit :=
  modify (set_modal (Modal.setError JNull)) ;;
  try_catch
    (WalletContext.connect env (Some "Petra") ;;
     modify (set_modal (Modal.setStep Modal.StepSign)))
    (fun err =>
       message <- member err "message" ;;
       modify (set_modal
                 (Modal.setError (js_or message (JStr "Failed to connect wallet"))))).

(** [updateUser({ aptosAddress: account.address })], when linking and the
    render holds an account with an address. *)
Definition update_user : Js unit :=
  match mode, WalletContext.currentAccount r with
  | link, Some a =>
      call env (UpdateUser (JObj [("aptosAddress",
                                   JStr (WalletContext.account_address a))])) ;;
      ret tt
  | _, _ => ret tt
  end.

Definition handleSign : Js unit :=
  modify (set_modal (Modal.setLoading true)) ;;
  modify (set_modal (Modal.setError JNull)) ;;
  try_finally
    (try_catch
       (result <- match mode with
                  | login => WalletContext.authenticateWithWallet env r
                  | link => WalletContext.linkWalletToAccount env r
                  end ;;
        success <- member result "success" ;;
        if truthy success then
          modify (set_modal (Modal.setStep Modal.StepSuccess)) ;;
          update_user ;;
          schedule 1500
        else
          modify (set_modal
                    (Modal.setError (js_or (opt_member result "error")
                                           (JStr "Authentication failed")))) ;;
          modify (set_modal (Modal.setStep Modal.StepError)))
       (fun err =>
          message <- member err "message" ;;
          modify (set_modal
                    (Modal.setError (js_or message (JStr "Something went wrong")))) ;;
          modify (set_modal (Modal.setStep Modal.StepError))))
    (modify (set_modal (Modal.setLoading false))).

Definition handleRetry : Js unit :=
  modify (set_modal (Modal.setError JNull)) ;;
  modify (set_modal
            (Modal.setStep (if WalletContext.connected r
                            then Modal.StepSign else Modal.StepConnect))).
End Component.
End WalletAuthModal.

(** ** [src/components/dashboard/StatsCards.tsx] *)

Module StatsCards.

(** [a ?? b]. *)
Definition coalesce (a b : JsVal) : JsVal := if nullish a then b else a.

(** [safeStats], and the values of the four cards in their order. *)
Definition safeStats (stats : JsVal) : list (string * JsVal) :=
  [("totalMemories", coalesce (opt_member stats "totalMemories") (JNum 0));
   ("storageUsed", coalesce (opt_member stats "storageUsed") (JStr "0 MB"));
   ("verifiedMemories", coalesce (opt_member stats "verifiedMemories") (JNum 0));
   ("activeQuests", coalesce (opt_member stats "activeQuests") (JNum 0))].

Definition cards (stats : JsVal) : list (string * JsVal) :=
  [("Total Memories", field "totalMemories" (safeStats stats));
   ("Storage Used", field "storageUsed" (safeStats stats));
   ("Verified", field "verifiedMemories" (safeStats stats));
   ("Active Quests", field "activeQuests" (safeStats stats))].
End StatsCards.

(** ** Vocabulary of the properties *)

(** [wp c Q w]: run from [w], the computation [c] ends in a completion and a
    world that satisfy [Q]. *)
Definition wp {A} (c : Js A) (Q : Completion A -> World -> Prop) (w : World) : Prop :=
  Q (fst (c w)) (snd (c w)).

(** [error.response?.status], as the response interceptor reads it. *)
Definition status_of (error : JsVal) : JsVal :=
  opt_member (opt_member error "response") "status".

(** No promise of the environment is rejected with [undefined] or [null]. *)
Definition rejects_objects (env : Env) : Prop :=
  forall h c e, outcome (provider env h c) = Throw e -> nullish e = false.

(** The call [c], issued after the calls [h], is fulfilled. *)
Definition resolves (env : Env) (h : list Call) (c : Call) : Prop :=
  exists v, outcome (provider env h c) = Normal v.

(** Every request to sign is fulfilled with [sigv]. *)
Definition signs_with (env : Env) (sigv : JsVal) : Prop :=
  (forall h message nonce,
      outcome (provider env h (AptosSignMessage message nonce)) = Normal sigv)
  /\ (forall h message, outcome (provider env h (WsSignMessage message)) = Normal sigv).

(** Every POST to [url] is fulfilled with [response]. *)
Definition answers_post (env : Env) (url : string) (response : JsVal) : Prop :=
  forall h authorization params body,
    outcome (provider env h (HttpRequest "POST" url authorization params body))
    = Normal response.

(** Every POST to [url] is rejected with [error]. *)
Definition rejects_post (env : Env) (url : string) (error : JsVal) : Prop :=
  forall h authorization params body,
    outcome (provider env h (HttpRequest "POST" url authorization params body))
    = Throw error.

(** The synchronous getters and the message builder of [walletService]
    return normally. *)
Definition service_answers (env : Env) : Prop :=
  forall h, resolves env h WsGetAddress /\ resolves env h WsGetPublicKey
            /\ forall a, resolves env h (WsGenerateAuthMessage a).

(** [{ success: true, ... }] or [{ success: false, ... }]. *)
Definition is_result (v : JsVal) : Prop :=
  opt_member v "success" = JBool true \/ opt_member v "success" = JBool false.

(** No wallet session in the component state. *)
Definition disconnected (s : WalletState) : Prop :=
  isConnected s = false /\ address s = JNull /\ publicKey s = JNull.

(** ** Concrete runs *)

Module Scenario.

Definition st0 : WalletState :=
  {| isConnected := false; isConnecting := false; address := JNull;
     publicKey := JNull; network := JNull; isPetraInstalled := false |}.

Definition w0 : World :=
  {| localStorage := ∅; location_href := "/"; console := []; calls := [];
     ui := st0; subscribed := false; hook := Memories.initial;
     button := Button.initial;
     modal := Modal.initial |}.

(** A browser that holds a session token and whose provider component has
    subscribed to the wallet's events. *)
Definition w_session : World :=
  {| localStorage := {[ "token" := "tok0" ]}; location_href := "/settings";
     console := []; calls := []; ui := st0; subscribed := true;
     hook := Memories.initial; button := Button.initial;
     modal := Modal.initial |}.

Definition sig0 : JsVal :=
  JObj [("signature", JStr "0xsig"); ("fullMessage", JStr "full");
        ("nonce", JStr "n1")].

Definition resp0 : JsVal :=
  JObj [("data", JObj [("data", JObj [("token", JStr "tok123")])]);
        ("status", JNum 200)].

Definition account0 : JsVal :=
  JObj [("address", JStr "0xABC"); ("publicKey", JStr "pk")].

Definition quiet (v : JsVal) : Reply := {| events := []; outcome := Normal v |}.

Definition failing (e : JsVal) : Reply := {| events := []; outcome := Throw e |}.

Definition happy_answer (c : Call) : Reply :=
  match c with
  | AptosSignMessage _ _ | WsSignMessage _ => quiet sig0
  | HttpRequest _ _ _ _ _ => quiet resp0
  | WsConnect | WsGetAccount => quiet account0
  | WsGetAddress => quiet (JStr "0xABC")
  | WsGetPublicKey => quiet (JStr "pk")
  | WsGetNetwork => quiet (JStr "testnet")
  | WsIsPetraInstalled => quiet (JBool true)
  | WsGenerateAuthMessage a => quiet (JStr ("Sign: " ++ to_string a))
  | AptosSignAndSubmitTransaction _ => quiet (JObj [("hash", JStr "0xhash")])
  | _ => quiet JUndefined
  end.

Definition env_of (answer : Call -> Reply) : Env :=
  {| provider := fun _ c => answer c;
     clock := fun h => 1700000000000 + Z.of_nat (length h);
     random36 := fun _ => "0.k3j9x2" |}.

Definition happy : Env := env_of happy_answer.

(** The wallet rejects the signature request with an object that has no
    [message]. *)
Definition refusal : JsVal := JObj [("code", JNum 4001)].

Definition sign_refused : Env :=
  env_of (fun c => match c with
                   | WsSignMessage _ => failing refusal
                   | _ => happy_answer c
                   end).

(** The adapter rejects the signature request with [null]. *)
Definition sign_rejected_null : Env :=
  env_of (fun c => match c with
                   | AptosSignMessage _ _ => failing JNull
                   | _ => happy_answer c
                   end).

Definition disconnect_fails : Env :=
  env_of (fun c => match c with
                   | AptosDisconnect => failing (Error "Wallet not connected")
                   | _ => happy_answer c
                   end).

Definition error401 : JsVal :=
  JObj [("message", JStr "Request failed with status code 401");
        ("response", JObj [("status", JNum 401);
                           ("data", JObj [("message", JStr "Not authorized")])])].

Definition error500 : JsVal :=
  JObj [("message", JStr "Request failed with status code 500");
        ("response", JObj [("status", JNum 500); ("data", JStr "oops")])].

Definition unauthorized : Env :=
  env_of (fun c => match c with
                   | HttpRequest _ _ _ _ _ => failing error401
                   | _ => happy_answer c
                   end).

Definition server_error : Env :=
  env_of (fun c => match c with
                   | HttpRequest _ _ _ _ _ => failing error500
                   | _ => happy_answer c
                   end).



Definition r_conn : WalletContext.Render :=
  {| WalletContext.connected := true;
     WalletContext.account :=
       Some {| WalletContext.account_address := "0xABC";
               WalletContext.account_publicKey := "pk" |};
     WalletContext.wallets := ["Petra"] |}.

(** Nothing connected, no wallet extension detected. *)
Definition r_cold : WalletContext.Render :=
  {| WalletContext.connected := false; WalletContext.account := None;
     WalletContext.wallets := [] |}.

End Scenario.

(** * Properties *)

(** ** Rules of the computations *)

Section WpRules.
Context {A B : Type}.
Implicit Types (w : World).

Lemma wp_ret (a : A) (Q : Completion A -> World -> Prop) w :
  Q (Normal a) w -> wp (ret a) Q w.
Proof. exact id. Qed.

Lemma wp_throw (e : JsVal) (Q : Completion A -> World -> Prop) w :
  Q (Throw e) w -> wp (throw e) Q w.
Proof. exact id. Qed.

Lemma wp_bind (c : Js A) (k : A -> Js B) (Q : Completion B -> World -> Prop) w :
  wp c (fun r w' => match r with
                    | Normal a => wp (k a) Q w'
                    | Throw e => Q (Throw e) w'
                    end) w ->
  wp (bind c k) Q w.
Proof. unfold wp, bind. destruct (c w) as [[a|e] w']; exact id. Qed.

Lemma wp_try_catch (c : Js A) (h : JsVal -> Js A) (Q : Completion A -> World -> Prop) w :
  wp c (fun r w' => match r with
                    | Normal a => Q (Normal a) w'
                    | Throw e => wp (h e) Q w'
                    end) w ->
  wp (try_catch c h) Q w.
Proof. unfold wp, try_catch. destruct (c w) as [[a|e] w']; exact id. Qed.

Lemma wp_try_finally (c : Js A) (f : Js unit) (Q : Completion A -> World -> Prop) w :
  wp c (fun r w' => wp f (fun r' w'' => match r' with
                                        | Normal _ => Q r w''
                                        | Throw e => Q (Throw e) w''
                                        end) w') w ->
  wp (try_finally c f) Q w.
Proof.
  unfold wp, try_finally. destruct (c w) as [r w']. cbn.
  destruct (f w') as [[u|e] w'']; exact id.
Qed.

Lemma wp_run (c : Js A) (Q : Completion A -> World -> Prop) w :
  wp c Q w -> exists res w', c w = (res, w') /\ Q res w'.
Proof.
  unfold wp. destruct (c w) as [res w']. intros H. exists res, w'. split; [reflexivity | exact H].
Qed.

Lemma wp_mono (c : Js A) (Q Q' : Completion A -> World -> Prop) w :
  wp c Q w -> (forall res w', Q res w' -> Q' res w') -> wp c Q' w.
Proof. unfold wp. intros H HQ. apply HQ, H. Qed.
End WpRules.

Lemma wp_modify f (Q : Completion unit -> World -> Prop) w :
  Q (Normal tt) (f w) -> wp (modify f) Q w.
Proof. exact id. Qed.

Lemma wp_await env c (Q : Completion JsVal -> World -> Prop) w :
  Q (outcome (provider env (calls w) c))
    (deliver (events (provider env (calls w) c)) (log_call c w)) ->
  wp (await env c) Q w.
Proof. exact id. Qed.

Lemma wp_call env c (Q : Completion JsVal -> World -> Prop) w :
  Q (outcome (provider env (calls w) c)) (log_call c w) -> wp (call env c) Q w.
Proof. exact id. Qed.

Lemma wp_sleep env ms (Q : Completion unit -> World -> Prop) w :
  Q (Normal tt)
    (deliver (events (provider env (calls w) (SetTimeout ms))) (log_call (SetTimeout ms) w)) ->
  wp (sleep env ms) Q w.
Proof. exact id. Qed.

Lemma wp_schedule ms (Q : Completion unit -> World -> Prop) w :
  Q (Normal tt) (log_call (SetTimeout ms) w) -> wp (schedule ms) Q w.
Proof. exact id. Qed.

Lemma wp_Date_now env (Q : Completion Z -> World -> Prop) w :
  Q (Normal (clock env (calls w))) w -> wp (Date_now env) Q w.
Proof. exact id. Qed.

Lemma wp_Math_random_36 env (Q : Completion string -> World -> Prop) w :
  Q (Normal (random36 env (calls w))) w -> wp (Math_random_36 env) Q w.
Proof. exact id. Qed.

Lemma wp_getItem k (Q : Completion (option string) -> World -> Prop) w :
  Q (Normal (localStorage w !! k)) w -> wp (getItem k) Q w.
Proof. exact id. Qed.

Lemma wp_member v k (Q : Completion JsVal -> World -> Prop) w :
  (nullish v = true -> forall e, nullish e = false -> Q (Throw e) w) ->
  (nullish v = false -> Q (Normal (opt_member v k)) w) ->
  wp (member v k) Q w.
Proof.
  intros Ht Hn. destruct v; first [ apply Hn; reflexivity | apply Ht; reflexivity ].
Qed.

Lemma wp_destructure v k (Q : Completion JsVal -> World -> Prop) w :
  (nullish v = true -> forall e, nullish e = false -> Q (Throw e) w) ->
  (nullish v = false -> Q (Normal (opt_member v k)) w) ->
  wp (destructure v k) Q w.
Proof.
  intros Ht Hn. destruct v; first [ apply Hn; reflexivity | apply Ht; reflexivity ].
Qed.

(** A key read through an object chain exists only on objects. *)
Lemma opt_member_nullish v k : nullish v = true -> opt_member v k = JUndefined.
Proof. destruct v; cbn; congruence. Qed.

Lemma opt_member_defined v k x :
  opt_member v k = x -> nullish x = false -> nullish v = false.
Proof. destruct v; cbn; intros <-; cbn; congruence. Qed.

Ltac head_of t := lazymatch t with ?f _ => head_of f | _ => t end.

(** The world after a step, as a record over the initial one. *)
Ltac wp_world :=
  cbn [localStorage location_href console calls ui subscribed hook button modal
       deliver log_call set_ui set_hook set_button set_modal].

(** One step of symbolic execution. *)
Ltac wp_step :=
  cbv beta; wp_world;
  lazymatch goal with
  | |- wp (bind _ _) _ _ => apply wp_bind
  | |- wp (ret _) _ _ => apply wp_ret
  | |- wp (throw _) _ _ => apply wp_throw
  | |- wp (try_catch _ _) _ _ => apply wp_try_catch
  | |- wp (try_finally _ _) _ _ => apply wp_try_finally
  | |- wp (modify _) _ _ => apply wp_modify
  | |- wp (await _ _) _ _ => apply wp_await
  | |- wp (call _ _) _ _ => apply wp_call
  | |- wp (sleep _ _) _ _ => apply wp_sleep
  | |- wp (schedule _) _ _ => apply wp_schedule
  | |- wp (Date_now _) _ _ => apply wp_Date_now
  | |- wp (Math_random_36 _) _ _ => apply wp_Math_random_36
  | |- wp (getItem _) _ _ => apply wp_getItem
  | |- wp (member _ _) _ _ =>
      apply wp_member;
      [ let H := fresh "Hnull" in
        intros H ? ?; try (cbn in H; discriminate H)
      | intros ? ]
  | |- wp (destructure _ _) _ _ =>
      apply wp_destructure;
      [ let H := fresh "Hnull" in
        intros H ? ?; try (cbn in H; discriminate H)
      | intros ? ]
  | |- wp (if ?b then _ else _) _ _ => destruct b eqn:?
  | |- wp (match ?x with _ => _ end) _ _ => destruct x eqn:?
  | |- match ?x with _ => _ end => destruct x eqn:?
  | |- wp ?c _ _ => let h := head_of c in unfold h
  end.

(** A rejection of the environment is not nullish; two readings of the same
    value agree. *)
Ltac absurd_branch :=
  match goal with
  | Hobj : rejects_objects _, H : outcome _ = Throw ?e, H' : nullish ?e = true |- _ =>
      apply Hobj in H; congruence
  | H : ?x = true, H' : ?x = false |- _ => congruence
  | H : ?x = Some _, H' : ?x = None |- _ => congruence
  | H : truthy ?v = true, H' : nullish ?v = true |- _ =>
      destruct v; discriminate
  | H : _ = _ |- _ => discriminate H
  end.

Lemma wp_result {A} (c : Js A) (res : Completion A) (P : World -> Prop) w :
  wp c (fun r w' => r = res /\ P w') w -> exists w', c w = (res, w') /\ P w'.
Proof.
  unfold wp. destruct (c w) as [r w']. cbn. intros [-> H]. exists w'. split; [reflexivity | exact H].
Qed.

(** Use what is known of the environment's answers. *)
Ltac answer :=
  repeat match goal with
  | Hs : signs_with _ _ |- _ => destruct Hs
  | Hr : resolves _ _ _ |- _ => destruct Hr
  | H : @Normal JsVal _ = Normal _ |- _ => injection H as H; try subst
  | H : @Throw JsVal _ = Throw _ |- _ => injection H as H; try subst
  | H : outcome (provider ?env _ _) = _,
    Ha : context [outcome (provider ?env _ _) = _] |- _ =>
      rewrite Ha in H; first [ discriminate H | injection H as H; subst ]
  end.

Ltac wp_go := repeat (wp_step; answer; try absurd_branch); wp_world.

Lemma sdk_cold r :
  WalletContext.account r = None ->
  WalletContext.needs_connect r = true /\ WalletContext.currentAccount r = None.
Proof.
  unfold WalletContext.needs_connect, WalletContext.currentAccount. intros ->.
  split; [apply orb_true_r | reflexivity].
Qed.


Lemma sdk_warm r a :
  WalletContext.connected r = true ->
  WalletContext.account r = Some a ->
  WalletContext.account_address a <> "" ->
  WalletContext.needs_connect r = false /\ WalletContext.currentAccount r = Some a.
Proof.
  unfold WalletContext.needs_connect, WalletContext.currentAccount. intros -> -> Ha.
  split; [reflexivity |]. destruct (String.eqb_spec (WalletContext.account_address a) "");
    [contradiction | reflexivity].
Qed.

(** A token read through [response.data.data] shows that the chain exists. *)
Lemma token_chain response t :
  opt_member (opt_member (opt_member response "data") "data") "token" = JStr t ->
  nullish response = false
  /\ nullish (opt_member response "data") = false
  /\ nullish (opt_member (opt_member response "data") "data") = false.
Proof.
  intros H.
  assert (H3 : nullish (opt_member (opt_member response "data") "data") = false)
    by (eapply opt_member_defined; [exact H | reflexivity]).
  assert (H2 : nullish (opt_member response "data") = false)
    by (eapply opt_member_defined; [reflexivity | exact H3]).
  assert (H1 : nullish response = false)
    by (eapply opt_member_defined; [reflexivity | exact H2]).
  auto.
Qed.

Lemma happy_signs : signs_with Scenario.happy Scenario.sig0.
Proof. split; reflexivity. Qed.

Lemma happy_service : service_answers Scenario.happy.
Proof. intros h. repeat split; try intros a; eexists; reflexivity. Qed.

(** A request makes one HTTP call, with the header the interceptor adds. *)
Lemma request_log env method url params body w :
  exists res w',
    api.request env method url params body w = (res, w')
    /\ calls w'
       = (calls w ++
          [HttpRequest method url
             (match localStorage w !! "token" with
              | Some t => if String.eqb t "" then None else Some ("Bearer " ++ t)%string
              | None => None
              end) params body])%list.
Proof.
  cut (wp (api.request env method url params body)
         (fun _ w' =>
            calls w'
            = (calls w ++
               [HttpRequest method url
                  (match localStorage w !! "token" with
                   | Some t => if String.eqb t "" then None else Some ("Bearer " ++ t)%string
                   | None => None
                   end) params body])%list) w).
  { intros H. apply wp_run in H. exact H. }
  unfold api.request, api.request_interceptor. wp_go; reflexivity.
Qed.

Lemma is_401_spec status : api.is_401 status = true <-> status = JNum 401.
Proof.
  destruct status; cbn; try (split; [discriminate | discriminate]).
  rewrite Z.eqb_eq. split; [intros -> | intros [= ->]]; reflexivity.
Qed.

(** A rejected request: what the response interceptor does before the
    rejection reaches the caller. *)
Lemma request_rejected env method url params body error w :
  (forall authorization,
      outcome (provider env (calls w) (HttpRequest method url authorization params body))
      = Throw error) ->
  nullish error = false ->
  exists w',
    api.request env method url params body w = (Throw error, w')
    /\ (status_of error = JNum 401 ->
        localStorage w' = delete "token" (localStorage w) /\ location_href w' = "/login")
    /\ (status_of error <> JNum 401 ->
        localStorage w' = localStorage w /\ location_href w' = location_href w).
Proof.
  intros Hrej Hobj. apply wp_result. unfold status_of.
  wp_go.
  - split; [reflexivity |]. split; [intros _; split; reflexivity |].
    intros H'. apply is_401_spec in Heqb. congruence.
  - split; [reflexivity |]. split; [| intros _; split; reflexivity].
    intros H'. apply is_401_spec in H'. congruence.
Qed.

(** The login of the adapter-based context, when everything answers. *)
Lemma sdk_login env r a sigv response t w :
  signs_with env sigv ->
  nullish sigv = false ->
  answers_post env "/auth/wallet" response ->
  opt_member (opt_member (opt_member response "data") "data") "token" = JStr t ->
  WalletContext.connected r = true ->
  WalletContext.account r = Some a ->
  WalletContext.account_address a <> "" ->
  exists w',
    WalletContext.authenticateWithWallet env r w
    = (Normal (WalletContext.success_token (JStr t)), w')
    /\ localStorage w' !! "token" = Some t.
Proof.
  intros Hsign Hsig Hpost Htoken Hc Ha Haddr.
  destruct (token_chain response t Htoken) as (Hr1 & Hr2 & Hr3).
  destruct (sdk_warm r a Hc Ha Haddr) as [Hneed Hcur].
  apply wp_result. unfold answers_post in Hpost. wp_go.
  all: try congruence.
  all: rewrite Htoken; split; [reflexivity | cbn; apply lookup_insert_eq].
Qed.

Lemma js_or_truthy_r a b : truthy b = true -> truthy (js_or a b) = true.
Proof. unfold js_or. destruct (truthy a) eqn:E; auto. Qed.

Ltac wp_run_all := repeat wp_step; try absurd_branch.

Ltac wp_leaf :=
  first [ left; reflexivity | right; reflexivity | right; eexists; reflexivity
        | match goal with Hobj : rejects_objects _ |- _ => eapply Hobj; eassumption end
        | assumption | reflexivity ].

(** *** The [try] blocks end in a result object or throw a value that the
    handler can read *)

Lemma sdk_authenticate_body env r w :
  rejects_objects env ->
  wp (WalletContext.authenticate_body env r)
     (fun res _ => match res with
                   | Normal v => v = WalletContext.failure (JStr "No wallet connected")
                                 \/ exists token, v = WalletContext.success_token token
                   | Throw e => nullish e = false
                   end) w.
Proof. intros Hobj. wp_run_all; wp_leaf. Qed.

Lemma sdk_link_body env r w :
  rejects_objects env ->
  wp (WalletContext.link_body env r)
     (fun res _ => match res with
                   | Normal v => v = WalletContext.failure (JStr "No wallet connected")
                                 \/ v = WalletContext.success_only
                   | Throw e => nullish e = false
                   end) w.
Proof. intros Hobj. wp_run_all; wp_leaf. Qed.

Lemma service_authenticate_body env address publicKey w :
  rejects_objects env ->
  wp (ServiceContext.authenticate_body env address publicKey)
     (fun res _ => match res with
                   | Normal v => is_result v
                   | Throw e => nullish e = false
                   end) w.
Proof. intros Hobj. wp_run_all; wp_leaf. Qed.

Lemma service_link_body env address publicKey w :
  rejects_objects env ->
  wp (ServiceContext.link_body env address publicKey)
     (fun res _ => match res with
                   | Normal v => is_result v
                   | Throw e => nullish e = false
                   end) w.
Proof. intros Hobj. wp_run_all; wp_leaf. Qed.

Lemma sdk_on_failure label fallback e w :
  nullish e = false ->
  exists w',
    WalletContext.on_failure label fallback e w
    = (Normal (WalletContext.failure
                 (WalletContext.error_text e (opt_member e "response") (JStr fallback))), w').
Proof. destruct e; try discriminate; intros _; eexists; reflexivity. Qed.

Lemma service_on_failure label e w :
  nullish e = false ->
  exists w',
    ServiceContext.on_failure label e w
    = (Normal (ServiceContext.failure
                 (ServiceContext.error_text e (opt_member e "response"))), w').
Proof. destruct e; try discriminate; intros _; eexists; reflexivity. Qed.

(** A [try] block whose thrown values the handler turns into [F e]. *)
Lemma caught (P : JsVal -> Prop) (F : JsVal -> JsVal) (body : Js JsVal) handler w :
  wp body (fun res _ => match res with
                        | Normal v => P v
                        | Throw e => nullish e = false
                        end) w ->
  (forall e w1, nullish e = false -> exists w', handler e w1 = (Normal (F e), w')) ->
  exists res w',
    try_catch body handler w = (Normal res, w')
    /\ (P res \/ exists e, res = F e)
    /\ forall e w1, body w = (Throw e, w1) -> res = F e.
Proof.
  unfold wp, try_catch. intros Hbody Hh.
  destruct (body w) as [[v|e] w1]; cbn in Hbody.
  - exists v, w1. repeat split; [left; exact Hbody | discriminate].
  - destruct (Hh e w1 Hbody) as [w' ->]. exists (F e), w'.
    repeat split; [right; eexists; reflexivity |].
    intros e' w1' [= <- <-]. reflexivity.
Qed.

(** C1 (as the code has it): when no promise is rejected with [undefined] or
    [null], neither flow of either wallet context ever throws: each returns a
    result object. In the adapter-based context a failure reported from the
    handler carries the backend's message when there is one, otherwise the
    thrown value's own message, otherwise the flow's fallback text, so its
    [error] is never empty; the [walletService]-based context has no fallback
    and reports the thrown value's own message, whatever it is. *)
Theorem failures_are_returned env r address publicKey w :
  rejects_objects env ->
  (exists res w',
      WalletContext.authenticateWithWallet env r w = (Normal res, w')
      /\ (opt_member res "success" = JBool true
          \/ opt_member res "success" = JBool false
             /\ truthy (opt_member res "error") = true)
      /\ forall e w1,
          WalletContext.authenticate_body env r w = (Throw e, w1) ->
          res = WalletContext.failure
                  (js_or (js_or (opt_member (opt_member (opt_member e "response") "data") "message")
                                (opt_member e "message"))
                         (JStr "Authentication failed")))
  /\ (exists res w',
      WalletContext.linkWalletToAccount env r w = (Normal res, w')
      /\ (opt_member res "success" = JBool true
          \/ opt_member res "success" = JBool false
             /\ truthy (opt_member res "error") = true)
      /\ forall e w1,
          WalletContext.link_body env r w = (Throw e, w1) ->
          res = WalletContext.failure
                  (js_or (js_or (opt_member (opt_member (opt_member e "response") "data") "message")
                                (opt_member e "message"))
                         (JStr "Failed to link wallet")))
  /\ (exists res w',
      ServiceContext.authenticateWithWallet env address publicKey w = (Normal res, w')
      /\ is_result res
      /\ forall e w1,
          ServiceContext.authenticate_body env address publicKey w = (Throw e, w1) ->
          res = ServiceContext.failure
                  (js_or (opt_member (opt_member (opt_member e "response") "data") "message")
                         (opt_member e "message")))
  /\ (exists res w',
      ServiceContext.linkWalletToAccount env address publicKey w = (Normal res, w')
      /\ is_result res
      /\ forall e w1,
          ServiceContext.link_body env address publicKey w = (Throw e, w1) ->
          res = ServiceContext.failure
                  (js_or (opt_member (opt_member (opt_member e "response") "data") "message")
                         (opt_member e "message"))).
Proof.
  intros Hobj. repeat split.
  - destruct (caught _ _ _ _ w (sdk_authenticate_body env r w Hobj)
                (sdk_on_failure "Wallet authentication failed:" "Authentication failed"))
      as (res & w' & Hrun & Hres & Hthrown).
    exists res, w'. repeat split; [exact Hrun | | exact Hthrown].
    destruct Hres as [[-> | [token ->]] | [e ->]];
      [right | left | right]; repeat split; apply js_or_truthy_r; reflexivity.
  - destruct (caught _ _ _ _ w (sdk_link_body env r w Hobj)
                (sdk_on_failure "Wallet linking failed:" "Failed to link wallet"))
      as (res & w' & Hrun & Hres & Hthrown).
    exists res, w'. repeat split; [exact Hrun | | exact Hthrown].
    destruct Hres as [[-> | ->] | [e ->]];
      [right | left | right]; repeat split; apply js_or_truthy_r; reflexivity.
  - destruct (caught _ _ _ _ w (service_authenticate_body env address publicKey w Hobj)
                (service_on_failure "Wallet authentication failed:"))
      as (res & w' & Hrun & Hres & Hthrown).
    exists res, w'. repeat split; [exact Hrun | | exact Hthrown].
    destruct Hres as [H | [e ->]]; [exact H | right; reflexivity].
  - destruct (caught _ _ _ _ w (service_link_body env address publicKey w Hobj)
                (service_on_failure "Wallet linking failed:"))
      as (res & w' & Hrun & Hres & Hthrown).
    exists res, w'. repeat split; [exact Hrun | | exact Hthrown].
    destruct Hres as [H | [e ->]]; [exact H | right; reflexivity].
Qed.

Lemma failures_are_returned_witness :
  rejects_objects Scenario.unauthorized
  /\ exists res w',
      WalletContext.authenticateWithWallet Scenario.unauthorized Scenario.r_conn Scenario.w_session
      = (Normal res, w')
      /\ res = WalletContext.failure (JStr "Not authorized").
Proof.
  assert (Hobj : rejects_objects Scenario.unauthorized).
  { intros h c e. destruct c; cbn; intros [= <-]; reflexivity. }
  split; [exact Hobj |].
  destruct (failures_are_returned Scenario.unauthorized Scenario.r_conn JNull JNull
              Scenario.w_session Hobj) as ((res & w' & Hrun & _ & Hthrown) & _).
  exists res, w'. split; [exact Hrun |].
  apply (Hthrown Scenario.error401 (snd (WalletContext.authenticate_body
           Scenario.unauthorized Scenario.r_conn Scenario.w_session))).
  vm_compute. reflexivity.
Defined.

(** C1, counterexample: the wallet refuses the signature with an object that
    has no [message]; the [walletService]-based flow then returns
    [{ success: false, error: undefined }], with no text at all. And when the
    adapter rejects with [null], the handler of the adapter-based flow throws
    while reading [error.response], and the exception reaches the caller. *)
Lemma failure_without_text :
  fst (ServiceContext.authenticateWithWallet Scenario.sign_refused (JStr "0xABC") (JStr "pk")
         Scenario.w0)
  = Normal (JObj [("success", JBool false); ("error", JUndefined)])
  /\ fst (WalletContext.authenticateWithWallet Scenario.sign_rejected_null Scenario.r_conn
            Scenario.w0)
     = Throw (TypeError "Cannot read properties of null (reading 'response')").
Proof. split; vm_compute; reflexivity. Qed.

(** C2 (as the code has it): neither [authenticateWithWallet] consults
    [isPetraInstalled]. For a render that sees no Petra wallet and holds no
    account, the adapter-based flow first calls the adapter's connect for
    'Petra'; it answers 'No wallet connected' only after that call was
    fulfilled, and reports the rejection when it was rejected. The
    [walletService]-based flow, holding no address, likewise starts with
    [walletService.connect()]. *)
Theorem connect_is_attempted_first env r address publicKey w :
  WalletContext.isPetraInstalled r = false ->
  WalletContext.account r = None ->
  truthy address = false ->
  (exists res w' rest,
      WalletContext.authenticateWithWallet env r w = (res, w')
      /\ calls w' = (calls w ++ AptosConnect "Petra" :: rest)%list
      /\ (resolves env (calls w) (AptosConnect "Petra") ->
          res = Normal (WalletContext.failure (JStr "No wallet connected")))
      /\ (forall e,
            outcome (provider env (calls w) (AptosConnect "Petra")) = Throw e ->
            nullish e = false ->
            res = Normal (WalletContext.failure
                            (WalletContext.error_text e (opt_member e "response")
                               (JStr "Authentication failed")))))
  /\ (exists res w' rest,
      ServiceContext.authenticateWithWallet env address publicKey w = (res, w')
      /\ calls w' = (calls w ++ WsConnect :: rest)%list).
Proof.
  intros _ Hacc Haddr. destruct (sdk_cold r Hacc) as [Hneed Hcur]. split.
  - cut (wp (WalletContext.authenticateWithWallet env r)
           (fun res w' =>
              (exists rest, calls w' = (calls w ++ AptosConnect "Petra" :: rest)%list)
              /\ (resolves env (calls w) (AptosConnect "Petra") ->
                  res = Normal (WalletContext.failure (JStr "No wallet connected")))
              /\ (forall e,
                     outcome (provider env (calls w) (AptosConnect "Petra")) = Throw e ->
                     nullish e = false ->
                     res = Normal (WalletContext.failure
                                     (WalletContext.error_text e (opt_member e "response")
                                        (JStr "Authentication failed"))))) w).
    { intros H. apply wp_run in H. destruct H as (res & w' & Hrun & [rest Hcalls] & H1 & H2).
      exists res, w', rest. auto. }
    wp_go.
    all: repeat split;
      try (cbn; rewrite <- ?app_assoc; cbn; eexists; reflexivity);
      try (intros [v Hv]; congruence); try (intros e' He' Hn; congruence).
  - cut (wp (ServiceContext.authenticateWithWallet env address publicKey)
           (fun _ w' => exists rest, calls w' = (calls w ++ WsConnect :: rest)%list) w).
    { intros H. apply wp_run in H. destruct H as (res & w' & Hrun & rest & Hcalls).
      exists res, w', rest. auto. }
    wp_go.
    all: cbn; rewrite <- ?app_assoc; cbn; eexists; reflexivity.
Qed.

Lemma connect_is_attempted_first_witness :
  exists res w' rest,
    WalletContext.authenticateWithWallet Scenario.happy Scenario.r_cold Scenario.w0 = (res, w')
    /\ calls w' = AptosConnect "Petra" :: rest.
Proof.
  destruct (connect_is_attempted_first Scenario.happy Scenario.r_cold JNull JNull Scenario.w0)
    as ((res & w' & rest & Hrun & Hcalls & _) & _); try reflexivity.
  exists res, w', rest. split; [exact Hrun | exact Hcalls].
Defined.

(** C2, counterexample: no wallet is detected ([wallets] is empty, so
    [isPetraInstalled] is false) and nothing is connected; the flow still
    calls the adapter's connect, and answers only after the 500 ms wait. *)
Lemma connect_attempted_without_provider :
  WalletContext.isPetraInstalled Scenario.r_cold = false
  /\ calls (snd (WalletContext.authenticateWithWallet Scenario.happy Scenario.r_cold Scenario.w0))
     = [AptosConnect "Petra"; SetTimeout 500].
Proof. split; vm_compute; reflexivity. Qed.

(** C3: for every address and every pair of time stamps, the login message
    and the link message differ; the first starts with 'Sign this message to
    authenticate', the second with 'Link this wallet to your LifeVault
    account.', and both wallet contexts build the same link message. *)
Theorem challenge_purposes_distinct (address : string) (t1 t2 : Z) :
  WalletContext.generateAuthMessage address t1 <> WalletContext.linkMessage address t2
  /\ String.prefix "Sign this message to authenticate"
       (WalletContext.generateAuthMessage address t1) = true
  /\ String.prefix "Link this wallet to your LifeVault account."
       (WalletContext.linkMessage address t2) = true
  /\ ServiceContext.linkMessage (JStr address) t2 = WalletContext.linkMessage address t2.
Proof.
  repeat split; try reflexivity.
  unfold WalletContext.generateAuthMessage, WalletContext.linkMessage. cbn. discriminate.
Qed.

(** C4: a connected wallet, a sign request that is fulfilled, a backend that
    answers the POST to '/auth/wallet' with a body [{ data: { token: t } }]:
    then [authenticateWithWallet], in either wallet context, returns
    [{ success: true, token: t }], and afterwards the 'token' key of
    [localStorage] holds [t]. *)
Theorem wallet_login_stores_token env r a address publicKey sigv response t w :
  signs_with env sigv ->
  nullish sigv = false ->
  answers_post env "/auth/wallet" response ->
  opt_member (opt_member (opt_member response "data") "data") "token" = JStr t ->
  (WalletContext.connected r = true ->
   WalletContext.account r = Some a ->
   WalletContext.account_address a <> "" ->
   exists w',
     WalletContext.authenticateWithWallet env r w
     = (Normal (WalletContext.success_token (JStr t)), w')
     /\ localStorage w' !! "token" = Some t)
  /\ (truthy address = true ->
      service_answers env ->
      exists w',
        ServiceContext.authenticateWithWallet env address publicKey w
        = (Normal (ServiceContext.success_token (JStr t)), w')
        /\ localStorage w' !! "token" = Some t).
Proof.
  intros Hsign Hsig Hpost Htoken.
  destruct (token_chain response t Htoken) as (Hr1 & Hr2 & Hr3).
  split.
  - intros Hc Ha Haddr.
    exact (sdk_login env r a sigv response t w Hsign Hsig Hpost Htoken Hc Ha Haddr).
  - intros Haddr Hserv. apply wp_result. unfold answers_post in Hpost.
    assert (Hgen : forall h x, resolves env h (WsGenerateAuthMessage x))
      by (intros h x; apply Hserv).
    assert (Hpk : forall h, resolves env h WsGetPublicKey) by (intros h; apply Hserv).
    wp_go.
    all: try congruence.
    all: try match goal with
             | H : outcome (provider _ ?h (WsGenerateAuthMessage ?x)) = Throw _ |- _ =>
                 destruct (Hgen h x); congruence
             | H : outcome (provider _ ?h WsGetPublicKey) = Throw _ |- _ =>
                 destruct (Hpk h); congruence
             end.
    all: try match goal with
             | H : truthy ?x = true, H' : negb (truthy ?x) = true |- _ =>
                 rewrite H in H'; discriminate H'
             end.
    all: rewrite Htoken; split; [reflexivity | cbn; apply lookup_insert_eq].
Qed.

Lemma wallet_login_stores_token_witness :
  (exists w',
      WalletContext.authenticateWithWallet Scenario.happy Scenario.r_conn Scenario.w0
      = (Normal (WalletContext.success_token (JStr "tok123")), w')
      /\ localStorage w' !! "token" = Some "tok123")
  /\ (exists w',
      ServiceContext.authenticateWithWallet Scenario.happy (JStr "0xABC") (JStr "pk") Scenario.w0
      = (Normal (ServiceContext.success_token (JStr "tok123")), w')
      /\ localStorage w' !! "token" = Some "tok123").
Proof.
  destruct (wallet_login_stores_token Scenario.happy Scenario.r_conn
              {| WalletContext.account_address := "0xABC";
                 WalletContext.account_publicKey := "pk" |}
              (JStr "0xABC") (JStr "pk") Scenario.sig0 Scenario.resp0 "tok123" Scenario.w0
              happy_signs eq_refl (fun _ _ _ _ => eq_refl) eq_refl) as [Hsdk Hws].
  split.
  - apply Hsdk; [reflexivity | reflexivity | discriminate].
  - apply Hws; [reflexivity | exact happy_service].
Defined.




(** C6 (as the code has it): [disconnect] succeeds when the provider's own
    disconnect is fulfilled, and then it can be repeated: two calls in a row
    both complete, and in the [walletService]-based context the component
    state holds no session after each of them. A rejection of the provider's
    disconnect is not absorbed: the adapter-based [disconnect] logs it and
    throws it again, the [walletService]-based one lets it through. *)
Theorem disconnect_follows_the_provider env w :
  ((forall h, resolves env h AptosDisconnect) ->
   exists w1 w2,
     WalletContext.disconnect env w = (Normal tt, w1)
     /\ WalletContext.disconnect env w1 = (Normal tt, w2))
  /\ ((forall h, resolves env h WsDisconnect) ->
      exists w1 w2,
        ServiceContext.disconnect env w = (Normal tt, w1)
        /\ disconnected (ui w1)
        /\ ServiceContext.disconnect env w1 = (Normal tt, w2)
        /\ disconnected (ui w2))
  /\ (forall e,
        outcome (provider env (calls w) AptosDisconnect) = Throw e ->
        exists w', WalletContext.disconnect env w = (Throw e, w')
                   /\ console w' = (console w ++ [("Failed to disconnect wallet:", e)])%list)
  /\ (forall e,
        outcome (provider env (calls w) WsDisconnect) = Throw e ->
        exists w', ServiceContext.disconnect env w = (Throw e, w')).
Proof.
  assert (Hsdk : forall w0, (forall h, resolves env h AptosDisconnect) ->
                            exists w1, WalletContext.disconnect env w0 = (Normal tt, w1)).
  { intros w0 H. destruct (H (calls w0)) as [v Hv].
    unfold WalletContext.disconnect, try_catch, bind, await, ret. rewrite Hv.
    eexists. reflexivity. }
  assert (Hws : forall w0, (forall h, resolves env h WsDisconnect) ->
                           exists w1, ServiceContext.disconnect env w0 = (Normal tt, w1)
                                      /\ disconnected (ui w1)).
  { intros w0 H. destruct (H (calls w0)) as [v Hv].
    unfold ServiceContext.disconnect, bind, await, modify. rewrite Hv.
    eexists. split; [reflexivity | repeat split]. }
  repeat split.
  - intros H. destruct (Hsdk w H) as [w1 H1]. destruct (Hsdk w1 H) as [w2 H2].
    exists w1, w2. auto.
  - intros H. destruct (Hws w H) as (w1 & H1 & D1). destruct (Hws w1 H) as (w2 & H2 & D2).
    exists w1, w2. auto.
  - intros e He. unfold WalletContext.disconnect, try_catch, bind, await, console_error,
      modify, throw. rewrite He. eexists. split; reflexivity.
  - intros e He. unfold ServiceContext.disconnect, bind, await. rewrite He.
    eexists. reflexivity.
Qed.

Lemma disconnect_follows_the_provider_witness :
  exists w1 w2,
    ServiceContext.disconnect Scenario.happy Scenario.w0 = (Normal tt, w1)
    /\ disconnected (ui w1)
    /\ ServiceContext.disconnect Scenario.happy w1 = (Normal tt, w2)
    /\ disconnected (ui w2).
Proof.
  destruct (disconnect_follows_the_provider Scenario.happy Scenario.w0) as (_ & Hws & _).
  apply Hws. intros h. exists JUndefined. reflexivity.
Defined.

(** C6, counterexample: the adapter rejects the disconnect of a wallet that
    is not connected; the adapter-based [disconnect] throws that error to its
    caller. *)
Lemma disconnect_can_throw :
  fst (WalletContext.disconnect Scenario.disconnect_fails Scenario.w0)
  = Throw (Error "Wallet not connected").
Proof. vm_compute. reflexivity. Qed.

(** C7 (as the code has it): the guard is in the adapter-based context
    only. There, [signMessage] called by a render that is not connected, or
    that holds no account, throws [Error('Wallet not connected')] and leaves
    the world as it was: no call reaches the adapter, whatever the message.
    [signMessage] of the [walletService]-based context checks nothing:
    whatever the component state, it hands the message to
    [walletService.signMessage] and returns or throws what that call gives. *)
Theorem signMessage_requires_connection env r message message' w :
  (WalletContext.connected r = false \/ WalletContext.account r = None ->
   WalletContext.signMessage env r message w
   = (Throw (Error "Wallet not connected"), w))
  /\ (exists w',
        ServiceContext.signMessage env message' w
        = (outcome (provider env (calls w) (WsSignMessage message')), w')
        /\ calls w' = (calls w ++ [WsSignMessage message'])%list
        /\ localStorage w' = localStorage w).
Proof.
  split.
  - intros H. unfold WalletContext.signMessage, WalletContext.needs_connect.
    destruct H as [-> | ->]; [reflexivity |]. rewrite orb_true_r. reflexivity.
  - eexists. unfold ServiceContext.signMessage, await. split; [reflexivity |].
    split; reflexivity.
Qed.

Lemma signMessage_requires_connection_witness :
  WalletContext.signMessage Scenario.happy Scenario.r_cold "hello" Scenario.w0
  = (Throw (Error "Wallet not connected"), Scenario.w0).
Proof.
  destruct (signMessage_requires_connection Scenario.happy Scenario.r_cold "hello" JNull
              Scenario.w0) as [H _].
  apply H. left. reflexivity.
Defined.

(** C7, counterexample: the component state says not connected and holds no
    address; [signMessage] of the [walletService]-based context still calls
    [walletService.signMessage] and returns its signature. *)
Lemma service_signMessage_has_no_guard :
  isConnected (ui Scenario.w0) = false
  /\ address (ui Scenario.w0) = JNull
  /\ fst (ServiceContext.signMessage Scenario.happy (JStr "hello") Scenario.w0)
     = Normal Scenario.sig0
  /\ calls (snd (ServiceContext.signMessage Scenario.happy (JStr "hello") Scenario.w0))
     = [WsSignMessage (JStr "hello")].
Proof. repeat split; vm_compute; reflexivity. Qed.

(** C8: when a request of the axios instance is rejected, the rejection
    reaches the caller unchanged; if its response has status 401 the 'token'
    key has been removed from [localStorage] and the page sent to '/login';
    with any other status, or no response at all, storage and location are
    as they were. *)
Theorem unauthorized_clears_session env method url params body error w :
  (forall authorization,
      outcome (provider env (calls w) (HttpRequest method url authorization params body))
      = Throw error) ->
  nullish error = false ->
  exists w',
    api.request env method url params body w = (Throw error, w')
    /\ (status_of error = JNum 401 ->
        localStorage w' = delete "token" (localStorage w) /\ location_href w' = "/login")
    /\ (status_of error <> JNum 401 ->
        localStorage w' = localStorage w /\ location_href w' = location_href w).
Proof.
  exact (request_rejected env method url params body error w).
Qed.

Lemma unauthorized_clears_session_witness :
  exists w',
    api.request Scenario.unauthorized "GET" "/memories/stats" JUndefined JUndefined
      Scenario.w_session
    = (Throw Scenario.error401, w')
    /\ localStorage w' !! "token" = None /\ location_href w' = "/login".
Proof.
  destruct (unauthorized_clears_session Scenario.unauthorized "GET" "/memories/stats"
              JUndefined JUndefined Scenario.error401 Scenario.w_session)
    as (w' & Hrun & H401 & _); try reflexivity.
  exists w'. split; [exact Hrun |].
  destruct (H401 eq_refl) as [-> ->]. split; [vm_compute | ]; reflexivity.
Defined.




(** C10: in the adapter-based context, [authenticateWithWallet] called by a
    render that holds no account returns
    [{ success: false, error: 'No wallet connected' }] even though the
    connect it triggers is fulfilled: it calls the adapter's connect, waits
    500 ms, then reads the account its render captured, and stops. Nothing is
    signed, nothing is sent, nothing is stored. *)
Theorem cold_start_never_signs env r w :
  WalletContext.account r = None ->
  resolves env (calls w) (AptosConnect "Petra") ->
  exists w',
    WalletContext.authenticateWithWallet env r w
    = (Normal (WalletContext.failure (JStr "No wallet connected")), w')
    /\ calls w' = (calls w ++ [AptosConnect "Petra"; SetTimeout 500])%list
    /\ localStorage w' = localStorage w.
Proof.
  intros Hacc Hres. destruct (sdk_cold r Hacc) as [Hneed Hcur].
  apply wp_result. wp_go.
  repeat split. cbn. rewrite <- app_assoc. reflexivity.
Qed.

Lemma cold_start_never_signs_witness :
  exists w',
    WalletContext.authenticateWithWallet Scenario.happy Scenario.r_cold Scenario.w0
    = (Normal (WalletContext.failure (JStr "No wallet connected")), w')
    /\ calls w' = [AptosConnect "Petra"; SetTimeout 500]
    /\ localStorage w' = localStorage Scenario.w0.
Proof.
  apply (cold_start_never_signs Scenario.happy Scenario.r_cold Scenario.w0).
  - reflexivity.
  - exists JUndefined. reflexivity.
Defined.

(** * Further properties of the code *)

(** ** The adapter-based context *)

(** X1: [signAndSubmitTransaction] is guarded by [connected] alone. A render that
    is not connected gets [Error('Wallet not connected')] and no call reaches
    the adapter. A render that is connected but holds no account is refused
    by [signMessage], while its transaction goes to the adapter, and the
    result is the [hash] of the adapter's answer. *)
Theorem signAndSubmitTransaction_guard env r transaction response w :
  (WalletContext.connected r = false ->
   WalletContext.signAndSubmitTransaction env r transaction w
   = (Throw (Error "Wallet not connected"), w))
  /\ (WalletContext.connected r = true ->
      WalletContext.account r = None ->
      outcome (provider env (calls w) (AptosSignAndSubmitTransaction transaction))
      = Normal response ->
      nullish response = false ->
      (exists w',
          WalletContext.signAndSubmitTransaction env r transaction w
          = (Normal (JObj [("hash", opt_member response "hash")]), w')
          /\ calls w' = (calls w ++ [AptosSignAndSubmitTransaction transaction])%list)
      /\ forall message,
          WalletContext.signMessage env r message w
          = (Throw (Error "Wallet not connected"), w)).
Proof.
  split.
  - intros H. unfold WalletContext.signAndSubmitTransaction. rewrite H. reflexivity.
  - intros Hc Ha Hres Hn. split.
    + apply wp_result. unfold WalletContext.signAndSubmitTransaction. rewrite Hc. cbn [negb].
      wp_go; try congruence. split; reflexivity.
    + intros message. unfold WalletContext.signMessage, WalletContext.needs_connect.
      rewrite Ha, orb_true_r. reflexivity.
Qed.

Lemma signAndSubmitTransaction_guard_witness :
  WalletContext.signAndSubmitTransaction Scenario.happy Scenario.r_cold (JObj []) Scenario.w0
  = (Throw (Error "Wallet not connected"), Scenario.w0).
Proof.
  destruct (signAndSubmitTransaction_guard Scenario.happy Scenario.r_cold (JObj []) JNull
              Scenario.w0) as [H _].
  apply H. reflexivity.
Defined.

(** ** The axios instance *)

(** X2: whatever the outcome, a request of the instance makes exactly one HTTP
    call. It carries [Authorization: Bearer t] when a non-empty token [t] is
    stored, and no [Authorization] header when the 'token' key is absent or
    holds the empty string. *)
Theorem request_carries_the_stored_token env method url params body w :
  exists res w' authorization,
    api.request env method url params body w = (res, w')
    /\ calls w' = (calls w ++ [HttpRequest method url authorization params body])%list
    /\ (forall t, localStorage w !! "token" = Some t -> t <> "" ->
                  authorization = Some ("Bearer " ++ t))
    /\ (localStorage w !! "token" = None \/ localStorage w !! "token" = Some "" ->
        authorization = None).
Proof.
  destruct (request_log env method url params body w) as (res & w' & Hrun & Hcalls).
  eexists res, w', _. split; [exact Hrun |]. split; [exact Hcalls |]. split.
  - intros t -> Ht. destruct (String.eqb_spec t ""); [contradiction | reflexivity].
  - intros [-> | ->]; reflexivity.
Qed.

Lemma request_carries_the_stored_token_witness :
  exists res w',
    api.request Scenario.happy "GET" "/auth/me" JUndefined JUndefined Scenario.w_session
    = (res, w')
    /\ calls w' = [HttpRequest "GET" "/auth/me" (Some "Bearer tok0") JUndefined JUndefined].
Proof.
  destruct (request_carries_the_stored_token Scenario.happy "GET" "/auth/me" JUndefined
              JUndefined Scenario.w_session)
    as (res & w' & authorization & Hrun & Hcalls & Hsome & _).
  exists res, w'. split; [exact Hrun |].
  rewrite Hcalls, (Hsome "tok0"); [reflexivity | vm_compute; reflexivity | discriminate].
Defined.

(** X3: a fulfilled response reaches the caller unchanged, and neither the
    storage nor the location is touched. *)
Theorem fulfilled_response_passes_through env method url params body response w :
  (forall authorization,
      outcome (provider env (calls w) (HttpRequest method url authorization params body))
      = Normal response) ->
  exists w',
    api.request env method url params body w = (Normal response, w')
    /\ localStorage w' = localStorage w
    /\ location_href w' = location_href w.
Proof.
  intros Hres. apply wp_result. wp_go; try congruence. repeat split.
Qed.

Lemma fulfilled_response_passes_through_witness :
  exists w',
    api.request Scenario.happy "POST" "/auth/login" JUndefined (JObj []) Scenario.w_session
    = (Normal Scenario.resp0, w')
    /\ localStorage w' = localStorage Scenario.w_session
    /\ location_href w' = location_href Scenario.w_session.
Proof.
  apply (fulfilled_response_passes_through Scenario.happy "POST" "/auth/login" JUndefined
           (JObj []) Scenario.resp0 Scenario.w_session).
  intros authorization. reflexivity.
Defined.

(** X4: round trip through the store: once [authenticateWithWallet] has returned
    a non-empty token [t], the next request of the instance, here
    [memoryAPI.getStats], carries [Authorization: Bearer t]. *)
Theorem wallet_login_authorizes_later_requests env r a sigv response t w :
  signs_with env sigv ->
  nullish sigv = false ->
  answers_post env "/auth/wallet" response ->
  opt_member (opt_member (opt_member response "data") "data") "token" = JStr t ->
  t <> "" ->
  WalletContext.connected r = true ->
  WalletContext.account r = Some a ->
  WalletContext.account_address a <> "" ->
  exists w1 res w2,
    WalletContext.authenticateWithWallet env r w
    = (Normal (WalletContext.success_token (JStr t)), w1)
    /\ memoryAPI.getStats env w1 = (res, w2)
    /\ calls w2
       = (calls w1 ++ [HttpRequest "GET" "/memories/stats" (Some ("Bearer " ++ t)%string)
                         JUndefined JUndefined])%list.
Proof.
  intros Hsign Hsig Hpost Htoken Ht Hc Ha Haddr.
  destruct (sdk_login env r a sigv response t w Hsign Hsig Hpost Htoken Hc Ha Haddr)
    as (w1 & Hrun & Hstore).
  destruct (request_log env "GET" "/memories/stats" JUndefined JUndefined w1)
    as (res & w2 & Hrun2 & Hcalls).
  exists w1, res, w2. split; [exact Hrun |]. split; [exact Hrun2 |].
  rewrite Hcalls, Hstore. destruct (String.eqb_spec t ""); [contradiction | reflexivity].
Qed.

Lemma wallet_login_authorizes_later_requests_witness :
  exists w1 res w2,
    WalletContext.authenticateWithWallet Scenario.happy Scenario.r_conn Scenario.w0
    = (Normal (WalletContext.success_token (JStr "tok123")), w1)
    /\ memoryAPI.getStats Scenario.happy w1 = (res, w2)
    /\ calls w2
       = (calls w1 ++ [HttpRequest "GET" "/memories/stats" (Some "Bearer tok123")
                         JUndefined JUndefined])%list.
Proof.
  apply (wallet_login_authorizes_later_requests Scenario.happy Scenario.r_conn
           {| WalletContext.account_address := "0xABC";
              WalletContext.account_publicKey := "pk" |}
           Scenario.sig0 Scenario.resp0 "tok123" Scenario.w0);
    try reflexivity; try discriminate.
  - exact happy_signs.
  - intros h authorization params body. reflexivity.
Defined.

(** X5: after a response with status 401 the session is forgotten: the next
    request of the instance, whatever it is, carries no [Authorization]
    header. *)
Theorem rejected_session_is_forgotten env method url params body error
        method' url' params' body' w :
  (forall authorization,
      outcome (provider env (calls w) (HttpRequest method url authorization params body))
      = Throw error) ->
  status_of error = JNum 401 ->
  exists w1 res w2,
    api.request env method url params body w = (Throw error, w1)
    /\ api.request env method' url' params' body' w1 = (res, w2)
    /\ calls w2 = (calls w1 ++ [HttpRequest method' url' None params' body'])%list.
Proof.
  intros Hrej H401.
  destruct (request_rejected env method url params body error w Hrej)
    as (w1 & Hrun & Hclear & _).
  { unfold status_of in H401.
    eapply opt_member_defined; [reflexivity |].
    eapply opt_member_defined; [exact H401 | reflexivity]. }
  destruct (Hclear H401) as [Hstore _].
  destruct (request_log env method' url' params' body' w1) as (res & w2 & Hrun2 & Hcalls).
  exists w1, res, w2. split; [exact Hrun |]. split; [exact Hrun2 |].
  rewrite Hcalls, Hstore, lookup_delete_eq. reflexivity.
Qed.

Lemma rejected_session_is_forgotten_witness :
  exists w1 res w2,
    api.request Scenario.unauthorized "GET" "/memories" JUndefined JUndefined
      Scenario.w_session
    = (Throw Scenario.error401, w1)
    /\ api.request Scenario.unauthorized "GET" "/auth/me" JUndefined JUndefined w1 = (res, w2)
    /\ calls w2 = (calls w1 ++ [HttpRequest "GET" "/auth/me" None JUndefined JUndefined])%list.
Proof.
  apply (rejected_session_is_forgotten Scenario.unauthorized "GET" "/memories" JUndefined
           JUndefined Scenario.error401 "GET" "/auth/me" JUndefined JUndefined
           Scenario.w_session).
  - intros authorization. reflexivity.
  - reflexivity.
Defined.

(** ** The [walletService]-based context *)

(** X6: [checkWallet] when [walletService.isPetraInstalled()] answers no: that
    is the only call made, and nothing but [isPetraInstalled] is written. *)
Theorem checkWallet_without_petra env installed w :
  outcome (provider env (calls w) WsIsPetraInstalled) = Normal installed ->
  truthy installed = false ->
  exists w',
    ServiceContext.checkWallet env w = (Normal tt, w')
    /\ calls w' = (calls w ++ [WsIsPetraInstalled])%list
    /\ ui w' = setIsPetraInstalled false (ui w).
Proof.
  intros Hres Hinst. apply wp_result. wp_go; try congruence.
  repeat split.
Qed.

Lemma checkWallet_without_petra_witness :
  exists w',
    ServiceContext.checkWallet
      (Scenario.env_of (fun c => match c with
                                 | WsIsPetraInstalled => Scenario.quiet (JBool false)
                                 | _ => Scenario.happy_answer c
                                 end)) Scenario.w0
    = (Normal tt, w')
    /\ calls w' = [WsIsPetraInstalled]
    /\ ui w' = setIsPetraInstalled false (ui Scenario.w0).
Proof.
  eapply (checkWallet_without_petra _ (JBool false) Scenario.w0); reflexivity.
Defined.

(** X7: [checkWallet] when Petra is installed: a wallet that already has an
    account is taken over as connected, with its address, its public key and
    the network; a wallet without account leaves the session fields alone and
    the network is not asked. *)
Theorem checkWallet_restores_the_session env installed account net w :
  outcome (provider env (calls w) WsIsPetraInstalled) = Normal installed ->
  truthy installed = true ->
  (forall h, outcome (provider env h WsGetAccount) = Normal account) ->
  (forall h, outcome (provider env h WsGetNetwork) = Normal net) ->
  subscribed w = false ->
  exists w',
    ServiceContext.checkWallet env w = (Normal tt, w')
    /\ (truthy account = true ->
        calls w' = (calls w ++ [WsIsPetraInstalled; WsGetAccount; WsGetNetwork])%list
        /\ ui w' = {| isConnected := true; isConnecting := isConnecting (ui w);
                      address := opt_member account "address";
                      publicKey := opt_member account "publicKey";
                      network := net; isPetraInstalled := true |})
    /\ (truthy account = false ->
        calls w' = (calls w ++ [WsIsPetraInstalled; WsGetAccount])%list
        /\ ui w' = setIsPetraInstalled true (ui w)).
Proof.
  intros Hres Hinst Hacc Hnet Hsub. apply wp_result. wp_go; try congruence.
  all: rewrite ?Hsub; repeat split; try congruence.
  all: rewrite <- ?app_assoc; reflexivity.
Qed.

Lemma checkWallet_restores_the_session_witness :
  exists w',
    ServiceContext.checkWallet Scenario.happy Scenario.w0 = (Normal tt, w')
    /\ calls w' = [WsIsPetraInstalled; WsGetAccount; WsGetNetwork]
    /\ address (ui w') = JStr "0xABC".
Proof.
  destruct (checkWallet_restores_the_session Scenario.happy (JBool true) Scenario.account0
              (JStr "testnet") Scenario.w0) as (w' & Hrun & Hyes & _); try reflexivity.
  exists w'. split; [exact Hrun |]. destruct (Hyes eq_refl) as [-> ->]. split; reflexivity.
Defined.

Lemma handle_keeps ev s :
  isConnecting (handle ev s) = isConnecting s
  /\ isPetraInstalled (handle ev s) = isPetraInstalled s.
Proof.
  destruct ev as [account | net]; cbn; unfold onAccountChange, onNetworkChange;
    [destruct (truthy account) | destruct (nullish net)]; split; reflexivity.
Qed.

Lemma events_keep evs : forall s,
  isConnecting (fold_left (fun s ev => handle ev s) evs s) = isConnecting s
  /\ isPetraInstalled (fold_left (fun s ev => handle ev s) evs s) = isPetraInstalled s.
Proof.
  induction evs as [| ev evs IH]; intros s; cbn; [split; reflexivity |].
  destruct (IH (handle ev s)) as [-> ->]. apply handle_keeps.
Qed.

(** X8: the two listeners: however many events the wallet has reported, the
    session fields are those of the last account event (connected with its
    address and public key, or no session when it carried no account), and
    no event ever touches [isConnecting] or [isPetraInstalled]. An account
    event and a network event commute. *)
Theorem events_settle_on_the_last_account evs account net s :
  let s' := fold_left (fun s ev => handle ev s) (evs ++ [AccountChanged account]) s in
  (truthy account = true ->
   isConnected s' = true
   /\ address s' = opt_member account "address"
   /\ publicKey s' = opt_member account "publicKey")
  /\ (truthy account = false -> disconnected s')
  /\ isConnecting s' = isConnecting s
  /\ isPetraInstalled s' = isPetraInstalled s
  /\ onAccountChange account (onNetworkChange net s)
     = onNetworkChange net (onAccountChange account s).
Proof.
  cbn zeta. rewrite fold_left_app. cbn [fold_left handle].
  set (s1 := fold_left (fun s ev => handle ev s) evs s).
  assert (Hk := events_keep evs s). fold s1 in Hk. destruct Hk as [Hk1 Hk2].
  unfold onAccountChange, onNetworkChange, disconnected.
  repeat split; try (intros ->; repeat split); try (destruct (truthy account); cbn; congruence).
  destruct (truthy account), (nullish net); reflexivity.
Qed.

Lemma events_settle_on_the_last_account_witness :
  disconnected
    (fold_left (fun s ev => handle ev s)
       ([AccountChanged Scenario.account0; NetworkChanged (JObj [("name", JStr "mainnet")])]
        ++ [AccountChanged JNull]) Scenario.st0).
Proof.
  destruct (events_settle_on_the_last_account
              [AccountChanged Scenario.account0; NetworkChanged (JObj [("name", JStr "mainnet")])]
              JNull JNull Scenario.st0) as (_ & H & _).
  apply H. reflexivity.
Defined.

(** X9: [connect] always ends with [isConnecting] false, whatever the wallet
    does; and when no promise is rejected with [undefined] or [null] it
    never throws: it returns a result object. *)
Theorem connect_reports_and_resets env w :
  (forall res w', ServiceContext.connect env w = (res, w') -> isConnecting (ui w') = false)
  /\ (rejects_objects env ->
      exists res w', ServiceContext.connect env w = (Normal res, w') /\ is_result res).
Proof.
  split.
  - cut (wp (ServiceContext.connect env) (fun _ w' => isConnecting (ui w') = false) w).
    { unfold wp. intros H res w' Hrun. rewrite Hrun in H. exact H. }
    wp_go; reflexivity.
  - intros Hobj.
    cut (wp (ServiceContext.connect env)
           (fun res _ => exists v, res = Normal v /\ is_result v) w).
    { intros H. apply wp_run in H. destruct H as (res & w' & Hrun & v & -> & Hv).
      exists v, w'. auto. }
    wp_go; eexists; (split; [reflexivity |]); first [left; reflexivity | right; reflexivity].
Qed.

Lemma connect_reports_and_resets_witness :
  exists res w', ServiceContext.connect Scenario.happy Scenario.w0 = (Normal res, w')
                 /\ is_result res.
Proof.
  destruct (connect_reports_and_resets Scenario.happy Scenario.w0) as [_ H].
  apply H. intros h c e. destruct c; cbn; discriminate.
Defined.

(** X10: [connect] marks the wallet connected before it asks for the network. So
    when [walletService.connect()] is fulfilled with [result] and
    [getNetwork()] is then rejected with [e], the caller is told
    [{ success: false, error: e.message }] while the component state already
    says connected, with [result]'s address. When [getNetwork()] is
    fulfilled, the result is [{ success: true, address }] and the state holds
    the address, the public key and the network. *)
Theorem connect_is_not_atomic env result w :
  outcome (provider env (calls w) WsConnect) = Normal result ->
  nullish result = false ->
  subscribed w = false ->
  (forall net,
      outcome (provider env (calls w ++ [WsConnect]) WsGetNetwork) = Normal net ->
      exists w',
        ServiceContext.connect env w
        = (Normal (ServiceContext.connect_ok (opt_member result "address")), w')
        /\ ui w' = {| isConnected := true; isConnecting := false;
                      address := opt_member result "address";
                      publicKey := opt_member result "publicKey";
                      network := net;
                      isPetraInstalled := isPetraInstalled (ui w) |})
  /\ (forall e,
        outcome (provider env (calls w ++ [WsConnect]) WsGetNetwork) = Throw e ->
        nullish e = false ->
        exists w',
          ServiceContext.connect env w
          = (Normal (ServiceContext.failure (opt_member e "message")), w')
          /\ isConnected (ui w') = true
          /\ address (ui w') = opt_member result "address"
          /\ isConnecting (ui w') = false).
Proof.
  intros Hres Hn Hsub. split.
  - intros net Hnet. apply wp_result. wp_go; try congruence.
    rewrite Hsub. repeat split.
  - intros e He Hne. apply wp_result. wp_go; try congruence.
    rewrite Hsub. repeat split.
Qed.

Lemma connect_is_not_atomic_witness :
  exists w',
    ServiceContext.connect
      (Scenario.env_of (fun c => match c with
                                 | WsGetNetwork => Scenario.failing (Error "network unknown")
                                 | _ => Scenario.happy_answer c
                                 end)) Scenario.w0
    = (Normal (ServiceContext.failure (JStr "network unknown")), w')
    /\ isConnected (ui w') = true
    /\ address (ui w') = JStr "0xABC"
    /\ isConnecting (ui w') = false.
Proof.
  destruct (connect_is_not_atomic
              (Scenario.env_of (fun c => match c with
                                         | WsGetNetwork =>
                                             Scenario.failing (Error "network unknown")
                                         | _ => Scenario.happy_answer c
                                         end))
              Scenario.account0 Scenario.w0) as [_ H]; try reflexivity.
  apply (H (Error "network unknown")); reflexivity.
Defined.

(** X11: the [walletService]-based login from a cold start: holding no address,
    the flow connects, then asks [walletService] for the address and, later,
    for the public key, instead of reading what its render captured. So the
    first login after a cold start goes through: the address and the public
    key of the service are the ones sent, and the token is stored. *)
Theorem service_cold_start_signs_in env addr pk result net addr' pk' sigv response t w :
  truthy addr = false ->
  truthy pk = false ->
  (forall h, outcome (provider env h WsConnect) = Normal result) ->
  nullish result = false ->
  (forall h, outcome (provider env h WsGetNetwork) = Normal net) ->
  (forall h, outcome (provider env h WsGetAddress) = Normal addr') ->
  truthy addr' = true ->
  (forall h, outcome (provider env h WsGetPublicKey) = Normal pk') ->
  (forall h a, resolves env h (WsGenerateAuthMessage a)) ->
  signs_with env sigv ->
  nullish sigv = false ->
  answers_post env "/auth/wallet" response ->
  opt_member (opt_member (opt_member response "data") "data") "token" = JStr t ->
  exists w' message authorization,
    ServiceContext.authenticateWithWallet env addr pk w
    = (Normal (ServiceContext.success_token (JStr t)), w')
    /\ localStorage w' !! "token" = Some t
    /\ calls w'
       = (calls w ++
          [WsConnect; WsGetNetwork; WsGetAddress; WsGenerateAuthMessage addr';
           WsSignMessage message; WsGetPublicKey;
           HttpRequest "POST" "/auth/wallet" authorization JUndefined
             (JObj [("address", addr'); ("publicKey", pk');
                    ("signature", opt_member sigv "signature");
                    ("message", opt_member sigv "fullMessage");
                    ("nonce", opt_member sigv "nonce")])])%list.
Proof.
  intros Haddr Hpk Hconn Hres Hnet Hget Haddr' Hgetpk Hgen Hsign Hsig Hpost Htoken.
  destruct (token_chain response t Htoken) as (Hr1 & Hr2 & Hr3).
  unfold answers_post in Hpost.
  cut (wp (ServiceContext.authenticateWithWallet env addr pk)
         (fun res w' =>
            res = Normal (ServiceContext.success_token (JStr t))
            /\ localStorage w' !! "token" = Some t
            /\ exists message authorization,
                calls w'
                = (calls w ++
                   [WsConnect; WsGetNetwork; WsGetAddress; WsGenerateAuthMessage addr';
                    WsSignMessage message; WsGetPublicKey;
                    HttpRequest "POST" "/auth/wallet" authorization JUndefined
                      (JObj [("address", addr'); ("publicKey", pk');
                             ("signature", opt_member sigv "signature");
                             ("message", opt_member sigv "fullMessage");
                             ("nonce", opt_member sigv "nonce")])])%list) w).
  { intros H. apply wp_run in H.
    destruct H as (res & w' & Hrun & -> & Hst & message & authorization & Hcalls).
    exists w', message, authorization. auto. }
  wp_go.
  all: try congruence.
  all: try match goal with
           | H : outcome (provider _ ?h (WsGenerateAuthMessage ?x)) = Throw _ |- _ =>
               destruct (Hgen h x); congruence
           | H : truthy ?x = true, H' : negb (truthy ?x) = true |- _ =>
               rewrite H in H'; discriminate H'
           end.
  all: rewrite Htoken; repeat split.
  all: try apply lookup_insert_eq.
  all: rewrite <- !app_assoc; cbn; do 2 eexists; reflexivity.
Qed.

Lemma service_cold_start_signs_in_witness :
  exists w' message authorization,
    ServiceContext.authenticateWithWallet Scenario.happy JNull JNull Scenario.w0
    = (Normal (ServiceContext.success_token (JStr "tok123")), w')
    /\ localStorage w' !! "token" = Some "tok123"
    /\ calls w'
       = [WsConnect; WsGetNetwork; WsGetAddress; WsGenerateAuthMessage (JStr "0xABC");
          WsSignMessage message; WsGetPublicKey;
          HttpRequest "POST" "/auth/wallet" authorization JUndefined
            (JObj [("address", JStr "0xABC"); ("publicKey", JStr "pk");
                   ("signature", JStr "0xsig"); ("message", JStr "full");
                   ("nonce", JStr "n1")])].
Proof.
  apply (service_cold_start_signs_in Scenario.happy JNull JNull Scenario.account0
           (JStr "testnet") (JStr "0xABC") (JStr "pk") Scenario.sig0 Scenario.resp0 "tok123"
           Scenario.w0); try reflexivity.
  - intros h a. eexists. reflexivity.
  - exact happy_signs.
  - intros h authorization params body. reflexivity.
Defined.

(** X12: the [walletService]-based login stops before anything is signed in two
    cases. When the connect it starts is rejected with [e], it returns
    [{ success: false, error: e.message }] after that single call. When the
    connect succeeds but [walletService.getAddress()] still gives nothing, it
    returns 'No wallet address'. In both cases nothing is sent to the backend
    and the store is unchanged. *)
Theorem service_login_stops_before_signing env addr pk w :
  truthy addr = false ->
  (forall e,
      outcome (provider env (calls w) WsConnect) = Throw e ->
      nullish e = false ->
      exists w',
        ServiceContext.authenticateWithWallet env addr pk w
        = (Normal (ServiceContext.failure (opt_member e "message")), w')
        /\ calls w' = (calls w ++ [WsConnect])%list
        /\ localStorage w' = localStorage w)
  /\ (forall result net addr',
        (forall h, outcome (provider env h WsConnect) = Normal result) ->
        nullish result = false ->
        (forall h, outcome (provider env h WsGetNetwork) = Normal net) ->
        (forall h, outcome (provider env h WsGetAddress) = Normal addr') ->
        truthy addr' = false ->
        exists w',
          ServiceContext.authenticateWithWallet env addr pk w
          = (Normal (ServiceContext.failure (JStr "No wallet address")), w')
          /\ calls w' = (calls w ++ [WsConnect; WsGetNetwork; WsGetAddress])%list
          /\ localStorage w' = localStorage w).
Proof.
  intros Haddr. split.
  - intros e He Hne. apply wp_result. wp_go; try congruence.
    repeat split.
  - intros result net addr' Hconn Hres Hnet Hget Haddr'. apply wp_result.
    wp_go; try congruence.
    all: try match goal with
             | H : truthy ?x = false, H' : negb (truthy ?x) = false |- _ =>
                 rewrite H in H'; discriminate H'
             end.
    all: repeat split; rewrite <- !app_assoc; reflexivity.
Qed.

Lemma service_login_stops_before_signing_witness :
  exists w',
    ServiceContext.authenticateWithWallet
      (Scenario.env_of (fun c => match c with
                                 | WsConnect => Scenario.failing (Error "User rejected")
                                 | _ => Scenario.happy_answer c
                                 end)) JNull JNull Scenario.w0
    = (Normal (ServiceContext.failure (JStr "User rejected")), w')
    /\ calls w' = [WsConnect]
    /\ localStorage w' = localStorage Scenario.w0.
Proof.
  destruct (service_login_stops_before_signing
              (Scenario.env_of (fun c => match c with
                                         | WsConnect => Scenario.failing (Error "User rejected")
                                         | _ => Scenario.happy_answer c
                                         end)) JNull JNull Scenario.w0) as [H _];
    [reflexivity |].
  apply (H (Error "User rejected")); reflexivity.
Defined.

(** ** The [useMemories] hook *)

Lemma field_assign k k' v fs :
  field k (assign k' v fs) = if String.eqb k k' then v else field k fs.
Proof.
  induction fs as [| [k0 v0] fs IH]; cbn.
  - destruct (String.eqb k k'); reflexivity.
  - destruct (String.eqb_spec k' k0) as [-> | Hne]; cbn.
    + destruct (String.eqb k k0); reflexivity.
    + rewrite IH. destruct (String.eqb_spec k k0) as [-> | Hne'].
      * destruct (String.eqb_spec k0 k'); [congruence | reflexivity].
      * reflexivity.
Qed.

(** X13: [{ ...initialParams, ...params }]: a key given in [params] has the value
    of [params], every other key keeps the value of [initialParams]. *)
Theorem spread_prefers_the_later_object b : forall a k,
  List.NoDup (map fst b) ->
  field k (spread a b)
  = if existsb (String.eqb k) (map fst b) then field k b else field k a.
Proof.
  unfold spread. induction b as [| [k' v'] b IH]; intros a k Hnd; cbn.
  - reflexivity.
  - inversion Hnd as [| ? ? Hnotin Hnd']; subst. rewrite (IH _ _ Hnd'), field_assign.
    destruct (String.eqb_spec k k') as [-> | Hne]; cbn.
    + destruct (existsb (String.eqb k') (map fst b)) eqn:E; [| reflexivity].
      apply existsb_exists in E. destruct E as (x & Hin & Hx).
      apply String.eqb_eq in Hx. subst x. exfalso. apply Hnotin. exact Hin.
    + reflexivity.
Qed.

Lemma spread_prefers_the_later_object_witness :
  field "page" (spread [("page", JNum 1); ("limit", JNum 20)] [("page", JNum 3)]) = JNum 3
  /\ field "limit" (spread [("page", JNum 1); ("limit", JNum 20)] [("page", JNum 3)])
     = JNum 20.
Proof.
  split.
  - rewrite (spread_prefers_the_later_object [("page", JNum 3)]
               [("page", JNum 1); ("limit", JNum 20)] "page"); [reflexivity |].
    repeat constructor. intros [].
  - rewrite (spread_prefers_the_later_object [("page", JNum 3)]
               [("page", JNum 1); ("limit", JNum 20)] "limit"); [reflexivity |].
    repeat constructor. intros [].
Defined.

(** X14: [fetchStats] never throws, whatever the backend does. When the request
    is rejected the error is written to the console and [stats] keeps its
    value. *)
Theorem fetchStats_swallows_errors env w :
  exists w',
    useMemories.fetchStats env w = (Normal tt, w')
    /\ forall e,
        (forall authorization,
            outcome (provider env (calls w)
                       (HttpRequest "GET" "/memories/stats" authorization JUndefined JUndefined))
            = Throw e) ->
        nullish e = false ->
        Memories.stats (hook w') = Memories.stats (hook w)
        /\ console w' = (console w ++ [("Failed to fetch stats:", e)])%list.
Proof.
  apply wp_result. wp_go.
  all: split; [reflexivity |].
  all: intros e' He' Hne'; try (rewrite He' in *; discriminate).
  all: try (rewrite He' in *; congruence).
  all: match goal with
       | H : outcome _ = Throw _ |- _ => rewrite He' in H; injection H as ->
       end; try congruence; split; reflexivity.
Qed.

(** X15: [fetchMemories] always ends with [loading] false. When the request is
    rejected with an object, it does not throw: [error] becomes the message
    of the backend, or 'Failed to fetch memories' when there is none, and
    the list and the pagination keep their values. *)
Theorem fetchMemories_settles env initialParams params w :
  (forall res w',
      useMemories.fetchMemories env initialParams params w = (res, w') ->
      Memories.loading (hook w') = false)
  /\ (forall e,
        (forall authorization query,
            outcome (provider env (calls w)
                       (HttpRequest "GET" "/memories" authorization query JUndefined))
            = Throw e) ->
        nullish e = false ->
        exists w',
          useMemories.fetchMemories env initialParams params w = (Normal tt, w')
          /\ Memories.error (hook w')
             = js_or (opt_member (opt_member (opt_member e "response") "data") "message")
                     (JStr "Failed to fetch memories")
          /\ Memories.memories (hook w') = Memories.memories (hook w)
          /\ Memories.pagination (hook w') = Memories.pagination (hook w)).
Proof.
  split.
  - cut (wp (useMemories.fetchMemories env initialParams params)
           (fun _ w' => Memories.loading (hook w') = false) w).
    { unfold wp. intros H res w' Hrun. rewrite Hrun in H. exact H. }
    wp_go; reflexivity.
  - intros e He Hne. apply wp_result. wp_go; try congruence.
    all: repeat split.
Qed.

Lemma fetchMemories_settles_witness :
  exists w',
    useMemories.fetchMemories Scenario.server_error [] [] Scenario.w0 = (Normal tt, w')
    /\ Memories.error (hook w') = JStr "Failed to fetch memories"
    /\ Memories.memories (hook w') = JArr []
    /\ Memories.loading (hook w') = false.
Proof.
  destruct (fetchMemories_settles Scenario.server_error [] [] Scenario.w0) as [Hload Hrej].
  destruct (Hrej Scenario.error500) as (w' & Hrun & Herr & Hmem & _); try reflexivity.
  exists w'. split; [exact Hrun |]. split; [exact Herr |]. split; [exact Hmem |].
  exact (Hload _ _ Hrun).
Defined.

Lemma fetchStats_swallows_errors_witness :
  exists w',
    useMemories.fetchStats Scenario.server_error Scenario.w0 = (Normal tt, w')
    /\ Memories.stats (hook w') = JNull
    /\ console w' = [("Failed to fetch stats:", Scenario.error500)].
Proof.
  destruct (fetchStats_swallows_errors Scenario.server_error Scenario.w0) as (w' & Hrun & H).
  exists w'. split; [exact Hrun |].
  apply (H Scenario.error500); [intros authorization |]; reflexivity.
Defined.

Lemma filter_out_spec id items :
  Forall (fun m => nullish m = false) items ->
  filter_out id items
  = Normal (filter (fun m => negb (strict_eq (opt_member m "_id") id)) items).
Proof.
  induction 1 as [| m items Hm _ IH]; cbn; [reflexivity |].
  rewrite Hm, IH. destruct (strict_eq (opt_member m "_id") id); reflexivity.
Qed.

(** X16: [deleteMemory] after a fulfilled DELETE: the list keeps, in order,
    exactly the memories whose [_id] is not the deleted one, and the result
    is [{ success: true }], whether or not the refresh of the statistics
    that follows succeeds. After a rejected DELETE the list is untouched, no
    further request is made, and the result carries the backend's message or
    'Failed to delete memory'. *)
Theorem deleteMemory_removes_exactly_one_id env id items w :
  Memories.memories (hook w) = JArr items ->
  Forall (fun m => nullish m = false) items ->
  (forall response,
      (forall authorization,
          outcome (provider env (calls w)
                     (HttpRequest "DELETE" ("/memories/" ++ to_string id) authorization
                        JUndefined JUndefined))
          = Normal response) ->
      exists w',
        useMemories.deleteMemory env id w
        = (Normal (JObj [("success", JBool true)]), w')
        /\ Memories.memories (hook w')
           = JArr (filter (fun m => negb (strict_eq (opt_member m "_id") id)) items)
        /\ Memories.crashed (hook w') = Memories.crashed (hook w))
  /\ (forall e,
        (forall authorization,
            outcome (provider env (calls w)
                       (HttpRequest "DELETE" ("/memories/" ++ to_string id) authorization
                          JUndefined JUndefined))
            = Throw e) ->
        nullish e = false ->
        exists w' authorization,
          useMemories.deleteMemory env id w
          = (Normal (useMemories.failure
                       (js_or (opt_member (opt_member (opt_member e "response") "data")
                                 "message")
                              (JStr "Failed to delete memory"))), w')
          /\ Memories.memories (hook w') = JArr items
          /\ calls w'
             = (calls w ++ [HttpRequest "DELETE" ("/memories/" ++ to_string id)%string
                              authorization JUndefined JUndefined])%list).
Proof.
  intros Hmem Hitems. split.
  - intros response Hres. apply wp_result. wp_go; try congruence.
    all: rewrite Hmem; unfold without; rewrite (filter_out_spec id items Hitems).
    all: repeat split.
  - intros e He Hne.
    cut (wp (useMemories.deleteMemory env id)
           (fun res w' =>
              res = Normal (useMemories.failure
                              (js_or (opt_member (opt_member (opt_member e "response") "data")
                                        "message")
                                     (JStr "Failed to delete memory")))
              /\ Memories.memories (hook w') = JArr items
              /\ exists authorization,
                  calls w'
                  = (calls w ++ [HttpRequest "DELETE" ("/memories/" ++ to_string id)%string
                                   authorization JUndefined JUndefined])%list) w).
    { intros H. apply wp_run in H.
      destruct H as (res & w' & Hrun & -> & Hm & authorization & Hcalls).
      exists w', authorization. auto. }
    wp_go; try congruence.
    all: repeat split; try assumption; eexists; reflexivity.
Qed.

Lemma deleteMemory_removes_exactly_one_id_witness :
  exists w',
    useMemories.deleteMemory Scenario.happy (JStr "m2")
      (set_hook (Memories.setMemories
                   (JArr [JObj [("_id", JStr "m1")]; JObj [("_id", JStr "m2")];
                          JObj [("_id", JStr "m3")]])) Scenario.w0)
    = (Normal (JObj [("success", JBool true)]), w')
    /\ Memories.memories (hook w')
       = JArr [JObj [("_id", JStr "m1")]; JObj [("_id", JStr "m3")]].
Proof.
  destruct (deleteMemory_removes_exactly_one_id Scenario.happy (JStr "m2")
              [JObj [("_id", JStr "m1")]; JObj [("_id", JStr "m2")];
               JObj [("_id", JStr "m3")]]
              (set_hook (Memories.setMemories
                           (JArr [JObj [("_id", JStr "m1")]; JObj [("_id", JStr "m2")];
                                  JObj [("_id", JStr "m3")]])) Scenario.w0))
    as [Hok _]; [reflexivity | repeat constructor |].
  destruct (Hok Scenario.resp0) as (w' & Hrun & Hmem & _); [intros authorization; reflexivity |].
  exists w'. split; [exact Hrun | exact Hmem].
Defined.

(** X17: [createMemory] after a fulfilled POST whose response has a body: when no
    promise is rejected with [undefined] or [null], the result is
    [{ success: true, data }] with the created memory, and exactly three
    requests were made, in this order: the POST, the reload of the list with
    the hook's initial parameters, and the reload of the statistics. A
    failure of either reload does not change the result. *)
Theorem createMemory_reloads_list_and_stats env initialParams data response w :
  rejects_objects env ->
  (forall authorization,
      outcome (provider env (calls w)
                 (HttpRequest "POST" "/memories" authorization JUndefined data))
      = Normal response) ->
  nullish response = false ->
  nullish (opt_member response "data") = false ->
  exists w' auth1 auth2 auth3,
    useMemories.createMemory env initialParams data w
    = (Normal (JObj [("success", JBool true);
                     ("data", opt_member (opt_member response "data") "data")]), w')
    /\ calls w'
       = (calls w ++
          [HttpRequest "POST" "/memories" auth1 JUndefined data;
           HttpRequest "GET" "/memories" auth2 (JObj initialParams) JUndefined;
           HttpRequest "GET" "/memories/stats" auth3 JUndefined JUndefined])%list.
Proof.
  intros Hobj Hres Hn1 Hn2.
  cut (wp (useMemories.createMemory env initialParams data)
         (fun res w' =>
            res = Normal (JObj [("success", JBool true);
                                ("data", opt_member (opt_member response "data") "data")])
            /\ exists auth1 auth2 auth3,
                calls w'
                = (calls w ++
                   [HttpRequest "POST" "/memories" auth1 JUndefined data;
                    HttpRequest "GET" "/memories" auth2 (JObj initialParams) JUndefined;
                    HttpRequest "GET" "/memories/stats" auth3 JUndefined JUndefined])%list) w).
  { intros H. apply wp_run in H.
    destruct H as (res & w' & Hrun & -> & a1 & a2 & a3 & Hcalls).
    exists w', a1, a2, a3. auto. }
  wp_go; try congruence.
  all: split; [reflexivity |].
  all: rewrite <- !app_assoc; cbn; do 3 eexists; reflexivity.
Qed.

Lemma createMemory_reloads_list_and_stats_witness :
  exists w' auth1 auth2 auth3,
    useMemories.createMemory Scenario.happy [("limit", JNum 20)] (JObj []) Scenario.w0
    = (Normal (JObj [("success", JBool true);
                     ("data", JObj [("token", JStr "tok123")])]), w')
    /\ calls w'
       = [HttpRequest "POST" "/memories" auth1 JUndefined (JObj []);
          HttpRequest "GET" "/memories" auth2 (JObj [("limit", JNum 20)]) JUndefined;
          HttpRequest "GET" "/memories/stats" auth3 JUndefined JUndefined].
Proof.
  apply (createMemory_reloads_list_and_stats Scenario.happy [("limit", JNum 20)] (JObj [])
           Scenario.resp0 Scenario.w0); try reflexivity.
  intros h c e. destruct c; cbn; discriminate.
Defined.

(** ** The connect button *)









(** ** The wallet modal *)

(** X21: [handleSign] always ends with [loading] false. When no promise is
    rejected with [undefined] or [null] and [updateUser] returns, it does not
    throw, and the modal is then on the success step with no error, or on
    the error step with a non-empty error text. *)
Theorem handleSign_settles env r mode w :
  (forall res w',
      WalletAuthModal.handleSign env r mode w = (res, w') ->
      Modal.loading (modal w') = false)
  /\ (rejects_objects env ->
      (forall h fields, resolves env h (UpdateUser fields)) ->
      exists w',
        WalletAuthModal.handleSign env r mode w = (Normal tt, w')
        /\ (Modal.step (modal w') = Modal.StepSuccess
            /\ Modal.error (modal w') = JNull
            \/ Modal.step (modal w') = Modal.StepError
               /\ truthy (Modal.error (modal w')) = true)).
Proof.
  split.
  - cut (wp (WalletAuthModal.handleSign env r mode)
           (fun _ w' => Modal.loading (modal w') = false) w).
    { unfold wp. intros H res w' Hrun. rewrite Hrun in H. exact H. }
    wp_go; reflexivity.
  - intros Hobj Hupd. apply wp_result. wp_go; try congruence.
    all: try match goal with
             | H : outcome (provider _ ?h (UpdateUser ?f)) = Throw _ |- _ =>
                 destruct (Hupd h f); congruence
             end.
    all: split; [reflexivity |];
      first [ left; split; reflexivity
            | right; split; [reflexivity | apply js_or_truthy_r; reflexivity] ].
Qed.

Lemma handleSign_settles_witness :
  exists w',
    WalletAuthModal.handleSign Scenario.unauthorized Scenario.r_conn WalletAuthModal.login
      Scenario.w_session
    = (Normal tt, w')
    /\ Modal.loading (modal w') = false
    /\ (Modal.step (modal w') = Modal.StepSuccess /\ Modal.error (modal w') = JNull
        \/ Modal.step (modal w') = Modal.StepError
           /\ truthy (Modal.error (modal w')) = true).
Proof.
  destruct (handleSign_settles Scenario.unauthorized Scenario.r_conn WalletAuthModal.login
              Scenario.w_session) as [Hload Hok].
  destruct Hok as (w' & Hrun & Hstep).
  - intros h c e. destruct c; cbn; intros [= <-]; reflexivity.
  - intros h fields. exists JUndefined. reflexivity.
  - exists w'. split; [exact Hrun |]. split; [exact (Hload _ _ Hrun) | exact Hstep].
Defined.

(** X22: the modal's [handleConnect]: when the adapter's connect for 'Petra'
    is fulfilled the modal moves to the sign step; when it is rejected with
    an object [e] the handler does not throw, the step stays where it was,
    and the error shown is [e.message], or 'Failed to connect wallet' when
    there is none. *)
Theorem modal_handleConnect_outcomes env w :
  (resolves env (calls w) (AptosConnect "Petra") ->
   exists w',
     WalletAuthModal.handleConnect env w = (Normal tt, w')
     /\ Modal.step (modal w') = Modal.StepSign
     /\ Modal.error (modal w') = JNull)
  /\ (forall e,
        outcome (provider env (calls w) (AptosConnect "Petra")) = Throw e ->
        nullish e = false ->
        exists w',
          WalletAuthModal.handleConnect env w = (Normal tt, w')
          /\ Modal.step (modal w') = Modal.step (modal w)
          /\ Modal.error (modal w')
             = js_or (opt_member e "message") (JStr "Failed to connect wallet")).
Proof.
  assert (Hname : (if String.eqb "Petra" "" then "Petra" else "Petra") = "Petra")
    by reflexivity.
  split.
  - intros Hres. apply wp_result.
    unfold WalletAuthModal.handleConnect, WalletContext.connect. rewrite Hname.
    wp_go; try congruence. repeat split.
  - intros e He Hne. apply wp_result.
    unfold WalletAuthModal.handleConnect, WalletContext.connect. rewrite Hname.
    wp_go; try congruence. repeat split.
Qed.

Lemma modal_handleConnect_outcomes_witness :
  exists w',
    WalletAuthModal.handleConnect Scenario.happy Scenario.w0 = (Normal tt, w')
    /\ Modal.step (modal w') = Modal.StepSign
    /\ Modal.error (modal w') = JNull.
Proof.
  destruct (modal_handleConnect_outcomes Scenario.happy Scenario.w0) as [H _].
  apply H. exists JUndefined. reflexivity.
Defined.

(** ** The statistics cards *)

(** X23: the four cards never show [undefined] or [null]. For each card, in
    the order Total Memories, Storage Used, Verified, Active Quests: a
    statistic that is present is shown as it is, also when it is 0 or the
    empty string, and a statistic that is missing or [null] is replaced by
    its default (0, '0 MB', 0, 0); all are missing while [stats] is still
    [null]. *)
Theorem cards_show_defaults stats :
  map fst (StatsCards.cards stats)
  = ["Total Memories"; "Storage Used"; "Verified"; "Active Quests"]
  /\ Forall (fun card => nullish (snd card) = false) (StatsCards.cards stats)
  /\ Forall (fun '(title, key, default) =>
               (nullish (opt_member stats key) = false ->
                field title (StatsCards.cards stats) = opt_member stats key)
               /\ (nullish (opt_member stats key) = true ->
                   field title (StatsCards.cards stats) = default))
       [("Total Memories", "totalMemories", JNum 0);
        ("Storage Used", "storageUsed", JStr "0 MB");
        ("Verified", "verifiedMemories", JNum 0);
        ("Active Quests", "activeQuests", JNum 0)]
  /\ (nullish stats = true ->
      StatsCards.cards stats
      = [("Total Memories", JNum 0); ("Storage Used", JStr "0 MB");
         ("Verified", JNum 0); ("Active Quests", JNum 0)]).
Proof.
  assert (Hc : forall a b, nullish b = false -> nullish (StatsCards.coalesce a b) = false).
  { intros a b Hb. unfold StatsCards.coalesce. destruct (nullish a) eqn:E; assumption. }
  split; [reflexivity |]. split; [| split].
  - unfold StatsCards.cards, StatsCards.safeStats. cbn [field String.eqb].
    repeat constructor; cbn [snd]; cbn; apply Hc; reflexivity.
  - repeat constructor; intros Hn; unfold StatsCards.cards, StatsCards.safeStats; cbn;
      unfold StatsCards.coalesce; rewrite Hn; reflexivity.
  - intros Hn. destruct stats; try discriminate; reflexivity.
Qed.

Lemma cards_show_defaults_witness :
  StatsCards.cards (Memories.stats Memories.initial)
  = [("Total Memories", JNum 0); ("Storage Used", JStr "0 MB");
     ("Verified", JNum 0); ("Active Quests", JNum 0)].
Proof.
  destruct (cards_show_defaults (Memories.stats Memories.initial)) as (_ & _ & _ & H).
  apply H. reflexivity.
Defined.
